(** * Authentication providers of the ingestion client

    A shallow embedding of
    [ingestion/src/metadata/ingestion/ometa/openmetadata_rest.py]:
    the six [AuthenticationProvider] classes and what their
    [get_access_token] does.

    The providers are glue around third-party libraries (google-auth, the
    Okta SDK, http.client, msal, requests).  The libraries are not part of
    the repository, so they enter the model as a [Platform]: an oracle that
    answers each library call from the state of the outside world.  What the
    providers themselves do -- which attributes they read, which calls they
    make in which order and with which arguments, what they store on [self],
    which exceptions they let through and where they end the process -- is
    translated statement by statement.

    Taken for granted: the imports inside the methods succeed (the libraries
    are installed), a library raises nothing outside [Exception], and
    [get_access_token] is not called from inside a running event loop. *)

From stdpp Require Import gmap strings list fin_maps.
From Stdlib Require Import ZArith String Ascii DecimalString Lia.

Local Set Warnings "-register-all".
Local Open Scope string_scope.
Local Open Scope Z_scope.

(** ** Python values *)

(** The values the providers handle.  A dict keeps its items in insertion
    order, as Python's does; an object is a class name with its attribute
    table.  Library objects (connections, credentials, executors) are objects
    too: the model never looks inside them. *)
Inductive value : Type :=
  | VNone
  | VBool (b : bool)
  | VInt (z : Z)
  | VStr (s : string)
  | VBytes (s : string)
  | VList (items : list value)
  | VDict (items : list (string * value))
  | VObj (cls : string) (attrs : gmap string value).

(** Exceptions deriving from [Exception].  [APIError] is the client's own
    class; [LibraryError] stands for whatever else a library raises
    (FileNotFoundError, ValueError, RefreshError, socket errors, ...). *)
Inductive exn : Type :=
  | APIError (error http_error : value)
  | KeyError (key : string)
  | AttributeError (name : string)
  | TypeError (msg : string)
  | LibraryError (cls msg : string).

(** The result of an expression that may raise. *)
Inductive result (A : Type) : Type :=
  | Ok (a : A)
  | Err (e : exn).
Arguments Ok {A} a.
Arguments Err {A} e.

(** How a call ends: with a value, with an exception that the caller can
    catch with [except Exception], or with [SystemExit], which
    [except Exception] does not catch and which ends the process. *)
Inductive outcome (A : Type) : Type :=
  | Ret (a : A)
  | Raise (e : exn)
  | Exit (code : value).
Arguments Ret {A} a.
Arguments Raise {A} e.
Arguments Exit {A} code.

(** [d.items] lookup: the item stored under [k]. *)
Fixpoint dict_lookup (k : string) (items : list (string * value)) : option value :=
  match items with
  | [] => None
  | (k', v) :: rest => if String.eqb k k' then Some v else dict_lookup k rest
  end.

(** [o.name]: an attribute read.  Only objects carry data attributes. *)
Definition getattr (o : value) (name : string) : result value :=
  match o with
  | VObj _ attrs =>
      match attrs !! name with
      | Some v => Ok v
      | None => Err (AttributeError name)
      end
  | _ => Err (AttributeError name)
  end.

(** [o[key]] with a string key: a dict answers or raises KeyError; nothing
    else can be indexed by a string. *)
Definition getitem (o : value) (key : string) : result value :=
  match o with
  | VDict items =>
      match dict_lookup key items with
      | Some v => Ok v
      | None => Err (KeyError key)
      end
  | VNone | VBool _ | VInt _ | VObj _ _ => Err (TypeError "object is not subscriptable")
  | VStr _ | VBytes _ | VList _ => Err (TypeError "indices must be integers")
  end.

(** [o.get(key)]: a dict method, [None] for a missing key. *)
Definition dict_get (o : value) (key : string) : result value :=
  match o with
  | VDict items =>
      match dict_lookup key items with
      | Some v => Ok v
      | None => Ok VNone
      end
  | _ => Err (AttributeError "get")
  end.

(** Truth value, as [if err:] takes it. *)
Definition truthy (v : value) : bool :=
  match v with
  | VNone => false
  | VBool b => b
  | VInt z => negb (z =? 0)
  | VStr s | VBytes s => negb (String.eqb s "")
  | VList items => match items with [] => false | _ => true end
  | VDict items => match items with [] => false | _ => true end
  | VObj _ _ => true
  end.

(** ** Library calls *)

(** The calls the providers make into libraries, with their arguments. *)
Inductive call : Type :=
  (* google.oauth2.service_account, google.auth.transport.requests *)
  | IDTokenCredentials_from_service_account_file (filename target_audience : value)
  | google_Request
  | credentials_refresh (credentials request : value)
  (* okta.jwt, okta.cache, okta.request_executor, time, uuid *)
  | JWT_get_PEM_JWK (private_key : value)
  | time_time
  | uuid_uuid4
  | jwk_to_dict (jwk : value)
  | jwt_encode (claims key algorithm : value)
  | OktaCache (ttl tti : Z)
  | RequestExecutor (config cache : value)
  | create_request (executor method url body headers : value) (oauth : bool)
  | fire_request (executor request : value)
  (* http.client *)
  | HTTPSConnection (host : value)
  | conn_request (conn method url body headers : value)
  | conn_getresponse (conn : value)
  | res_read (res : value)
  (* msal *)
  | ConfidentialClientApplication (client_id client_credential authority : value)
  | acquire_token_for_client (app scopes : value)
  (* requests *)
  | requests_post (url data : value).

(** What [requests.post] hands back, as far as the provider reads it:
    [json] is what [response.json()] yields. *)
Record Response : Type := {
  ok : bool;
  status_code : Z;
  text : string;
  json : result value;
}.

(** The shape of each call's result, from the libraries' signatures.
    - [credentials_refresh] changes the credentials in place; it answers with
      the [token] and [expiry] attributes the credentials have afterwards.
    - [time_time] answers with [int(time.time())], whole seconds.
    - [uuid_uuid4] answers with [str(uuid.uuid4())].
    - [JWT_get_PEM_JWK] answers with the pair (pem, jwk), [create_request]
      with (request, error), [fire_request] with
      (request, response details, response body, error). *)
Definition returns (c : call) : Type :=
  match c with
  | credentials_refresh _ _ => (value * value)%type
  | time_time => Z
  | uuid_uuid4 => string
  | JWT_get_PEM_JWK _ => (value * value)%type
  | create_request _ _ _ _ _ _ => (value * value)%type
  | fire_request _ _ => (value * value * value * value)%type
  | requests_post _ _ => Response
  | _ => value
  end.

(** What sits outside the interpreter.  [perform] answers a library call
    from the state of the world (file system, clock, entropy, network peers)
    and moves the world on; the rest are pure library functions. *)
Class Platform : Type := {
  world : Type;
  perform : forall c : call, world -> result (returns c) * world;
  (** [json.loads] *)
  json_loads : value -> result value;
  (** [str(v)] of a value that is not already a [str] *)
  py_str : value -> string;
  (** [sep.join(v)] *)
  str_join : string -> value -> result string;
  (** [urllib.parse.urlencode(v, quote_via=quote)] *)
  urlencode : value -> result string;
  (** [v.decode(encoding)] *)
  decode : value -> string -> result value;
  (** [okta.jwt.JWT.HASH_ALGORITHM] *)
  JWT_HASH_ALGORITHM : value;
}.

(** Modelled from the spec: [okta.jwt.JWT.ONE_HOUR] belongs to the Okta SDK
    and is not among the sources; the spec gives the assertion's lifetime
    as one hour, [exp - iat == 3600] seconds. *)
Definition JWT_ONE_HOUR : Z := 3600.

(** Modelled from the spec: the class [APIError] lives in
    [metadata.ingestion.ometa.client], which is not among the sources; the
    spec describes it as an error carrying the response body and status code
    verbatim.  Its message is the ["message"] item of the [error] it was
    built from. *)
Definition APIError_message (e : exn) : option string :=
  match e with
  | APIError (VDict items) _ =>
      match dict_lookup "message" items with
      | Some (VStr s) => Some s
      | _ => None
      end
  | _ => None
  end.

(** [f"{v}"]: a [str] is taken as it is, anything else goes through [str]. *)
Definition format `{Platform} (v : value) : string :=
  match v with
  | VStr s => s
  | _ => py_str v
  end.

(** ** The interpreter state and its monad *)

(** What a run leaves behind besides its result: the library calls it made
    and the records it logged, oldest first. *)
Inductive event : Type :=
  | Called (c : call)
  | Logged (level : string) (e : exn).

Section Monad.
Context `{Platform}.

(** [self], the outside world, and the events so far. *)
Record state (Self : Type) : Type := State {
  self : Self;
  env : world;
  trace : list event;
}.
Arguments State {Self}.
Arguments self {Self}.
Arguments env {Self}.
Arguments trace {Self}.

Definition M (Self A : Type) : Type := state Self -> outcome A * state Self.

Definition ret {Self A} (a : A) : M Self A := fun st => (Ret a, st).

Definition bind {Self A B} (m : M Self A) (k : A -> M Self B) : M Self B :=
  fun st =>
    match m st with
    | (Ret a, st') => k a st'
    | (Raise e, st') => (Raise e, st')
    | (Exit c, st') => (Exit c, st')
    end.

(** [raise e] *)
Definition raise {Self A} (e : exn) : M Self A := fun st => (Raise e, st).

(** [sys.exit(code)] *)
Definition sys_exit {Self A} (code : value) : M Self A := fun st => (Exit code, st).

(** An expression that may raise, evaluated in place. *)
Definition lift {Self A} (r : result A) : M Self A :=
  match r with
  | Ok a => ret a
  | Err e => raise e
  end.

(** [self.f] *)
Definition gets {Self A} (f : Self -> A) : M Self A := fun st => (Ret (f (self st)), st).

(** [self.f = ...] *)
Definition modify {Self} (f : Self -> Self) : M Self unit :=
  fun st => (Ret tt, State (f (self st)) (env st) (trace st)).

(** A library call: the world answers, the call is recorded. *)
Definition ext {Self} (c : call) : M Self (returns c) :=
  fun st =>
    let (r, w) := perform c (env st) in
    let st' := State (self st) w (trace st ++ [Called c]) in
    match r with
    | Ok v => (Ret v, st')
    | Err e => (Raise e, st')
    end.

(** [logger.<level>(...)] about the exception at hand.  Logging is
    recorded; it does not fail and does not touch the world. *)
Definition log {Self} (level : string) (e : exn) : M Self unit :=
  fun st => (Ret tt, State (self st) (env st) (trace st ++ [Logged level e])).

(** [try: body / except Exception as err: handler err].  [SystemExit] is
    not an [Exception] and passes through. *)
Definition try_except_Exception {Self A} (body : M Self A) (handler : exn -> M Self A) : M Self A :=
  fun st =>
    match body st with
    | (Raise e, st') => handler e st'
    | other => other
    end.

(** [try: body / except KeyError as err: handler err] *)
Definition try_except_KeyError {Self A} (body : M Self A) (handler : exn -> M Self A) : M Self A :=
  fun st =>
    match body st with
    | (Raise (KeyError k), st') => handler (KeyError k) st'
    | other => other
    end.

(** [asyncio.run(coro)]: the coroutine runs to its end on the calling
    thread; its result, exception or [SystemExit] is the call's. *)
Definition asyncio_run {Self A} (coro : M Self A) : M Self A := coro.

(** The events a run added to the trace. *)
Definition emitted {Self} (before after : state Self) : list event :=
  drop (List.length (trace before)) (trace after).
End Monad.

Arguments State {_ Self}.
Arguments self {_ Self}.
Arguments env {_ Self}.
Arguments trace {_ Self}.

Notation "'let*' x ':=' m 'in' k" := (bind m (fun x => k))
  (at level 10, x name, m at level 100, k at level 200).
Notation "'let*' ' pat ':=' m 'in' k" := (bind m (fun x => match x with pat => k end))
  (at level 10, pat pattern, m at level 100, k at level 200).

(** ** The providers *)

(** [class NoOpAuthenticationProvider] *)
Module NoOpAuthenticationProvider.
Record t : Type := { config : value }.

Definition __init__ (config : value) : result t :=
  Ok {| config := config |}.

Definition create (config : value) : result t := __init__ config.

Section Methods.
Context `{Platform}.

Definition auth_token : M t unit := ret tt.

Definition get_access_token : M t (value * value) :=
  ret (VStr "no_token", VNone).
End Methods.
End NoOpAuthenticationProvider.

(** [class GoogleAuthenticationProvider] *)
Module GoogleAuthenticationProvider.
Record t : Type := {
  config : value;
  security_config : value;
  generated_auth_token : value;
  expiry : value;
}.

Definition set_generated_auth_token (v : value) (s : t) : t :=
  {| config := config s; security_config := security_config s;
     generated_auth_token := v; expiry := expiry s |}.

Definition set_expiry (v : value) (s : t) : t :=
  {| config := config s; security_config := security_config s;
     generated_auth_token := generated_auth_token s; expiry := v |}.

Definition __init__ (config : value) : result t :=
  match getattr config "securityConfig" with
  | Ok sc =>
      Ok {| config := config; security_config := sc;
            generated_auth_token := VNone; expiry := VNone |}
  | Err e => Err e
  end.

Definition create (config : value) : result t := __init__ config.

Section Methods.
Context `{Platform}.

Definition auth_token : M t unit :=
  let* sc := gets security_config in
  let* secretKey := lift (getattr sc "secretKey") in
  let* audience := lift (getattr sc "audience") in
  let* credentials :=
    ext (IDTokenCredentials_from_service_account_file secretKey audience) in
  let* request := ext google_Request in
  let* '(token, expiry) := ext (credentials_refresh credentials request) in
  let* _ := modify (set_generated_auth_token token) in
  modify (set_expiry expiry).

Definition get_access_token : M t (value * value) :=
  let* _ := auth_token in
  let* token := gets generated_auth_token in
  let* expiry := gets expiry in
  ret (token, expiry).
End Methods.
End GoogleAuthenticationProvider.

(** [class OktaAuthenticationProvider] *)
Module OktaAuthenticationProvider.
Record t : Type := {
  config : value;
  security_config : value;
  generated_auth_token : value;
  expiry : value;
}.

Definition set_generated_auth_token (v : value) (s : t) : t :=
  {| config := config s; security_config := security_config s;
     generated_auth_token := v; expiry := expiry s |}.

Definition set_expiry (v : value) (s : t) : t :=
  {| config := config s; security_config := security_config s;
     generated_auth_token := generated_auth_token s; expiry := v |}.

Definition __init__ (config : value) : result t :=
  match getattr config "securityConfig" with
  | Ok sc =>
      Ok {| config := config; security_config := sc;
            generated_auth_token := VNone; expiry := VNone |}
  | Err e => Err e
  end.

Definition create (config : value) : result t := __init__ config.

(** The claims of the assertion, as the dict literal lists them. *)
Definition claims (clientId orgURL : value) (issued_time expiry_time : Z)
    (generated_jwt_id : string) : value :=
  VDict [("sub", clientId);
         ("iat", VInt issued_time);
         ("exp", VInt expiry_time);
         ("iss", clientId);
         ("aud", orgURL);
         ("jti", VStr generated_jwt_id)].

Section Methods.
Context `{Platform}.

(** The first part of the [try]: the assertion is built and signed and
    the token request is sent; the result is what [fire_request] hands
    back. *)
Definition send_token_request : M t (value * value * value * value) :=
  let* sc := gets security_config in
  let* privateKey := lift (getattr sc "privateKey") in
  let* '(my_pem, my_jwk) := ext (JWT_get_PEM_JWK privateKey) in
  let* issued_time := ext time_time in
  let expiry_time := issued_time + JWT_ONE_HOUR in
  let* generated_jwt_id := ext uuid_uuid4 in
  let* clientId := lift (getattr sc "clientId") in
  let* orgURL := lift (getattr sc "orgURL") in
  let claims := claims clientId orgURL issued_time expiry_time generated_jwt_id in
  let* key := ext (jwk_to_dict my_jwk) in
  let* token := ext (jwt_encode claims key JWT_HASH_ALGORITHM) in
  let* scopes := lift (getattr sc "scopes") in
  let config :=
    VDict [("client",
            VDict [("orgUrl", orgURL);
                   ("authorizationMode", VStr "BEARER");
                   ("rateLimit", VDict []);
                   ("privateKey", privateKey);
                   ("clientId", clientId);
                   ("token", token);
                   ("scopes", scopes)])] in
  let* cache := ext (OktaCache expiry_time issued_time) in
  let* request_exec := ext (RequestExecutor config cache) in
  let* client := lift (getitem config "client") in
  let* client_scopes := lift (getitem client "scopes") in
  let* scope := lift (str_join " " client_scopes) in
  let parameters :=
    VDict [("grant_type", VStr "client_credentials");
           ("scope", VStr scope);
           ("client_assertion_type",
            VStr "urn:ietf:params:oauth:client-assertion-type:jwt-bearer");
           ("client_assertion", token)] in
  let* encoded_parameters := lift (urlencode parameters) in
  let url := format orgURL ++ "?" ++ encoded_parameters in
  let* token_request_object :=
    ext (create_request request_exec (VStr "POST") (VStr url) VNone
           (VDict [("Accept", VStr "application/json");
                   ("Content-Type", VStr "application/x-www-form-urlencoded")])
           true) in
  ext (fire_request request_exec (fst token_request_object)).

(** The body of the [try]: the request, then what is made of its
    answer. *)
Definition exchange : M t unit :=
  let* '(_, res_details, res_json, err) := send_token_request in
  let* _ := if truthy err
            then raise (APIError (VStr (format err)) VNone)
            else ret tt in
  let* response_dict := lift (json_loads res_json) in
  let* access_token := lift (dict_get response_dict "access_token") in
  let* _ := modify (set_generated_auth_token access_token) in
  let* expires_in := lift (dict_get response_dict "expires_in") in
  modify (set_expiry expires_in).

Definition auth_token : M t unit :=
  try_except_Exception exchange
    (fun err =>
       let* _ := log "debug" err in
       let* _ := log "error" err in
       sys_exit VNone).

Definition get_access_token : M t (value * value) :=
  let* _ := asyncio_run auth_token in
  let* token := gets generated_auth_token in
  let* expiry := gets expiry in
  ret (token, expiry).
End Methods.
End OktaAuthenticationProvider.

(** [class Auth0AuthenticationProvider] *)
Module Auth0AuthenticationProvider.
Record t : Type := {
  config : value;
  security_config : value;
  generated_auth_token : value;
  expiry : value;
}.

Definition set_generated_auth_token (v : value) (s : t) : t :=
  {| config := config s; security_config := security_config s;
     generated_auth_token := v; expiry := expiry s |}.

Definition set_expiry (v : value) (s : t) : t :=
  {| config := config s; security_config := security_config s;
     generated_auth_token := generated_auth_token s; expiry := v |}.

Definition __init__ (config : value) : result t :=
  match getattr config "securityConfig" with
  | Ok sc =>
      Ok {| config := config; security_config := sc;
            generated_auth_token := VNone; expiry := VNone |}
  | Err e => Err e
  end.

Definition create (config : value) : result t := __init__ config.

Section Methods.
Context `{Platform}.

(** The form body sent to the token endpoint. *)
Definition payload (clientId secretKey domain : value) : string :=
  "grant_type=client_credentials&client_id=" ++ format clientId
  ++ "&client_secret=" ++ format secretKey
  ++ "&audience=https://" ++ format domain ++ "/api/v2/".

Definition headers : value :=
  VDict [("content-type", VStr "application/x-www-form-urlencoded")].

Definition auth_token : M t unit :=
  let* sc := gets security_config in
  let* domain := lift (getattr sc "domain") in
  let* conn := ext (HTTPSConnection domain) in
  let* clientId := lift (getattr sc "clientId") in
  let* secretKey := lift (getattr sc "secretKey") in
  let payload := payload clientId secretKey domain in
  let* _ :=
    ext (conn_request conn (VStr "POST")
           (VStr ("/" ++ format domain ++ "/oauth/token"))
           (VStr payload) headers) in
  let* res := ext (conn_getresponse conn) in
  let* data := ext (res_read res) in
  let* decoded := lift (decode data "utf-8") in
  let* token := lift (json_loads decoded) in
  let* access_token := lift (getitem token "access_token") in
  let* _ := modify (set_generated_auth_token access_token) in
  let* expires_in := lift (getitem token "expires_in") in
  modify (set_expiry expires_in).

Definition get_access_token : M t (value * value) :=
  let* _ := auth_token in
  let* token := gets generated_auth_token in
  let* expiry := gets expiry in
  ret (token, expiry).
End Methods.
End Auth0AuthenticationProvider.

(** [class AzureAuthenticationProvider] *)
Module AzureAuthenticationProvider.
Record t : Type := {
  config : value;
  generated_auth_token : value;
  expiry : value;
}.

Definition set_generated_auth_token (v : value) (s : t) : t :=
  {| config := config s; generated_auth_token := v; expiry := expiry s |}.

Definition set_expiry (v : value) (s : t) : t :=
  {| config := config s; generated_auth_token := generated_auth_token s;
     expiry := v |}.

Definition __init__ (config : value) : result t :=
  Ok {| config := config; generated_auth_token := VNone; expiry := VNone |}.

Definition create (config : value) : result t := __init__ config.

Section Methods.
Context `{Platform}.

Definition auth_token : M t unit :=
  let* config := gets config in
  let* client_id := lift (getattr config "client_id") in
  let* secret_key := lift (getattr config "secret_key") in
  let* authority := lift (getattr config "authority") in
  let* app := ext (ConfidentialClientApplication client_id secret_key authority) in
  let* scopes := lift (getattr config "scopes") in
  let* token := ext (acquire_token_for_client app scopes) in
  try_except_KeyError
    (let* access_token := lift (getitem token "access_token") in
     let* _ := modify (set_generated_auth_token access_token) in
     let* expires_in := lift (getitem token "expires_in") in
     modify (set_expiry expires_in))
    (fun err =>
       let* _ := log "error" err in
       let* _ := log "debug" err in
       let* _ := log "debug" err in
       sys_exit (VInt 1)).

Definition get_access_token : M t (value * value) :=
  let* _ := auth_token in
  let* token := gets generated_auth_token in
  let* expiry := gets expiry in
  ret (token, expiry).
End Methods.
End AzureAuthenticationProvider.

(** [class CustomOIDCAuthenticationProvider] *)
Module CustomOIDCAuthenticationProvider.
Record t : Type := {
  config : value;
  security_config : value;
  generated_auth_token : value;
  expiry : value;
}.

Definition set_generated_auth_token (v : value) (s : t) : t :=
  {| config := config s; security_config := security_config s;
     generated_auth_token := v; expiry := expiry s |}.

Definition set_expiry (v : value) (s : t) : t :=
  {| config := config s; security_config := security_config s;
     generated_auth_token := generated_auth_token s; expiry := v |}.

Definition __init__ (config : value) : result t :=
  match getattr config "securityConfig" with
  | Ok sc =>
      Ok {| config := config; security_config := sc;
            generated_auth_token := VNone; expiry := VNone |}
  | Err e => Err e
  end.

Definition create (config : value) : result t := __init__ config.

Section Methods.
Context `{Platform}.

Definition data (clientId secretKey : value) : value :=
  VDict [("grant_type", VStr "client_credentials");
         ("client_id", clientId);
         ("client_secret", secretKey)].

Definition auth_token : M t unit :=
  let* sc := gets security_config in
  let* clientId := lift (getattr sc "clientId") in
  let* secretKey := lift (getattr sc "secretKey") in
  let data := data clientId secretKey in
  let* tokenEndpoint := lift (getattr sc "tokenEndpoint") in
  let* response := ext (requests_post tokenEndpoint data) in
  if ok response then
    let* response_json := lift (json response) in
    let* access_token := lift (getitem response_json "access_token") in
    let* _ := modify (set_generated_auth_token access_token) in
    let* expires_in := lift (getitem response_json "expires_in") in
    modify (set_expiry expires_in)
  else
    raise (APIError (VDict [("message", VStr (text response))])
             (VInt (status_code response))).

Definition get_access_token : M t (value * value) :=
  let* _ := auth_token in
  let* token := gets generated_auth_token in
  let* expiry := gets expiry in
  ret (token, expiry).
End Methods.
End CustomOIDCAuthenticationProvider.

(** ** A scripted platform

    A test double for the libraries, used to run the providers on concrete
    inputs: the world is the list of answers the libraries will give, one per
    call, in order.  Its [json_loads] reads the JSON the token endpoints
    send: objects, arrays, strings without escapes, integers and the three
    literals. *)
Module Scripted.
Inductive answer : Type :=
  | Gives (v : value)
  | GivesPair (a b : value)
  | GivesQuad (a b c d : value)
  | GivesInt (z : Z)
  | GivesStr (s : string)
  | GivesResponse (r : Response)
  | Raises (e : exn).

Definition mismatch {A} : result A :=
  Err (TypeError "the scripted answer does not fit the call").

Definition as_value (a : answer) : result value :=
  match a with Gives v => Ok v | Raises e => Err e | _ => mismatch end.

Definition as_pair (a : answer) : result (value * value) :=
  match a with GivesPair x y => Ok (x, y) | Raises e => Err e | _ => mismatch end.

Definition as_quad (a : answer) : result (value * value * value * value) :=
  match a with
  | GivesQuad x y z u => Ok (x, y, z, u)
  | Raises e => Err e
  | _ => mismatch
  end.

Definition as_int (a : answer) : result Z :=
  match a with GivesInt z => Ok z | Raises e => Err e | _ => mismatch end.

Definition as_str (a : answer) : result string :=
  match a with GivesStr s => Ok s | Raises e => Err e | _ => mismatch end.

Definition as_response (a : answer) : result Response :=
  match a with GivesResponse r => Ok r | Raises e => Err e | _ => mismatch end.

Definition answer_to (c : call) (a : answer) : result (returns c) :=
  match c return result (returns c) with
  | credentials_refresh _ _ => as_pair a
  | JWT_get_PEM_JWK _ => as_pair a
  | create_request _ _ _ _ _ _ => as_pair a
  | fire_request _ _ => as_quad a
  | time_time => as_int a
  | uuid_uuid4 => as_str a
  | requests_post _ _ => as_response a
  | IDTokenCredentials_from_service_account_file _ _ => as_value a
  | google_Request => as_value a
  | jwk_to_dict _ => as_value a
  | jwt_encode _ _ _ => as_value a
  | OktaCache _ _ => as_value a
  | RequestExecutor _ _ => as_value a
  | HTTPSConnection _ => as_value a
  | conn_request _ _ _ _ _ => as_value a
  | conn_getresponse _ => as_value a
  | res_read _ => as_value a
  | ConfidentialClientApplication _ _ _ => as_value a
  | acquire_token_for_client _ _ => as_value a
  end.

(** The next scripted answer; a script that has run out is a dead network. *)
Definition next_answer (c : call) (script : list answer)
    : result (returns c) * list answer :=
  match script with
  | [] => (Err (LibraryError "ConnectionError" "no answer"), [])
  | a :: rest => (answer_to c a, rest)
  end.

(** *** Reading JSON *)

Definition is_space (c : ascii) : bool :=
  (Ascii.eqb c " " || Ascii.eqb c "010" || Ascii.eqb c "009" || Ascii.eqb c "013")%bool.

Definition digit (c : ascii) : option Z :=
  let n := nat_of_ascii c in
  if ((48 <=? n)%nat && (n <=? 57)%nat)%bool then Some (Z.of_nat n - 48) else None.

Fixpoint skip_space (s : list ascii) : list ascii :=
  match s with
  | c :: rest => if is_space c then skip_space rest else s
  | [] => []
  end.

(** The characters up to the closing quote; escapes are not read. *)
Fixpoint read_string (s : list ascii) : option (string * list ascii) :=
  match s with
  | [] => None
  | c :: rest =>
      if Ascii.eqb c "034" then Some ("", rest)
      else if Ascii.eqb c "\" then None
      else match read_string rest with
           | Some (str, rest') => Some (String c str, rest')
           | None => None
           end
  end.

Fixpoint read_digits (acc : Z) (s : list ascii) : Z * list ascii :=
  match s with
  | c :: rest =>
      match digit c with
      | Some d => read_digits (10 * acc + d) rest
      | None => (acc, s)
      end
  | [] => (acc, [])
  end.

(** A later item replaces an earlier one with the same key, in its place. *)
Fixpoint dict_set (k : string) (v : value) (items : list (string * value))
    : list (string * value) :=
  match items with
  | [] => [(k, v)]
  | (k', v') :: rest =>
      if String.eqb k k' then (k, v) :: rest else (k', v') :: dict_set k v rest
  end.

(** [s] without the literal [lit] it starts with. *)
Fixpoint after_literal (lit : string) (s : list ascii) : option (list ascii) :=
  match lit with
  | EmptyString => Some s
  | String c lit' =>
      match s with
      | c' :: rest => if Ascii.eqb c c' then after_literal lit' rest else None
      | [] => None
      end
  end.

(** The next character is [c]: what follows it. *)
Definition after_char (c : ascii) (s : list ascii) : option (list ascii) :=
  match s with
  | c' :: rest => if Ascii.eqb c c' then Some rest else None
  | [] => None
  end.

Definition read_number (s : list ascii) : option (value * list ascii) :=
  match after_char "-" s with
  | Some (c :: rest) =>
      match digit c with
      | Some d => let (z, rest') := read_digits d rest in Some (VInt (- z), rest')
      | None => None
      end
  | Some [] => None
  | None =>
      match s with
      | c :: rest =>
          match digit c with
          | Some d => let (z, rest') := read_digits d rest in Some (VInt z, rest')
          | None => None
          end
      | [] => None
      end
  end.

Fixpoint read_value (fuel : nat) (s : list ascii) : option (value * list ascii) :=
  match fuel with
  | O => None
  | S fuel =>
      let s := skip_space s in
      match after_literal "null" s with
      | Some rest => Some (VNone, rest)
      | None =>
      match after_literal "true" s with
      | Some rest => Some (VBool true, rest)
      | None =>
      match after_literal "false" s with
      | Some rest => Some (VBool false, rest)
      | None =>
      match after_char "034" s with
      | Some rest =>
          match read_string rest with
          | Some (str, rest') => Some (VStr str, rest')
          | None => None
          end
      | None =>
      match after_char "[" s with
      | Some rest =>
          match after_char "]" (skip_space rest) with
          | Some rest' => Some (VList [], rest')
          | None =>
              match read_elements fuel rest with
              | Some (vs, rest') => Some (VList vs, rest')
              | None => None
              end
          end
      | None =>
      match after_char "{" s with
      | Some rest =>
          match after_char "}" (skip_space rest) with
          | Some rest' => Some (VDict [], rest')
          | None =>
              match read_members fuel [] rest with
              | Some (items, rest') => Some (VDict items, rest')
              | None => None
              end
          end
      | None => read_number s
      end end end end end end
  end
with read_elements (fuel : nat) (s : list ascii) : option (list value * list ascii) :=
  match fuel with
  | O => None
  | S fuel =>
      match read_value fuel s with
      | Some (v, rest) =>
          let rest := skip_space rest in
          match after_char "," rest with
          | Some rest' =>
              match read_elements fuel rest' with
              | Some (vs, rest'') => Some (v :: vs, rest'')
              | None => None
              end
          | None =>
              match after_char "]" rest with
              | Some rest' => Some ([v], rest')
              | None => None
              end
          end
      | None => None
      end
  end
with read_members (fuel : nat) (items : list (string * value)) (s : list ascii)
    : option (list (string * value) * list ascii) :=
  match fuel with
  | O => None
  | S fuel =>
      match after_char "034" (skip_space s) with
      | Some rest =>
          match read_string rest with
          | Some (k, rest1) =>
              match after_char ":" (skip_space rest1) with
              | Some rest2 =>
                  match read_value fuel rest2 with
                  | Some (v, rest3) =>
                      let rest3 := skip_space rest3 in
                      match after_char "," rest3 with
                      | Some rest4 => read_members fuel (dict_set k v items) rest4
                      | None =>
                          match after_char "}" rest3 with
                          | Some rest4 => Some (dict_set k v items, rest4)
                          | None => None
                          end
                      end
                  | None => None
                  end
              | None => None
              end
          | None => None
          end
      | None => None
      end
  end.

Definition json_error : exn := LibraryError "JSONDecodeError" "".

Definition loads (doc : string) : result value :=
  let s := list_ascii_of_string doc in
  match read_value (S (List.length s)) s with
  | Some (v, rest) =>
      match skip_space rest with
      | [] => Ok v
      | _ => Err json_error
      end
  | None => Err json_error
  end.

Definition loads_value (v : value) : result value :=
  match v with
  | VStr doc | VBytes doc => loads doc
  | _ => Err (TypeError "the JSON object must be str, bytes or bytearray")
  end.

(** *** The other pure functions, on the values the runs below use *)

Definition str_of (v : value) : string :=
  match v with
  | VNone => "None"
  | VBool true => "True"
  | VBool false => "False"
  | VInt z => NilZero.string_of_int (Z.to_int z)
  | VStr s | VBytes s => s
  | VList _ => "[...]"
  | VDict _ => "{...}"
  | VObj cls _ => "<" ++ cls ++ " object>"
  end.

Fixpoint strings_of (items : list value) : option (list string) :=
  match items with
  | [] => Some []
  | VStr s :: rest =>
      match strings_of rest with
      | Some ss => Some (s :: ss)
      | None => None
      end
  | _ => None
  end.

Definition join (sep : string) (v : value) : result string :=
  match v with
  | VList items =>
      match strings_of items with
      | Some ss => Ok (String.concat sep ss)
      | None => Err (TypeError "sequence item: expected str instance")
      end
  | _ => Err (TypeError "can only join an iterable")
  end.

(** Keys and values joined as they are; the runs below use none that
    would need quoting. *)
Definition encode_items (v : value) : result string :=
  match v with
  | VDict items =>
      Ok (String.concat "&" (map (fun kv => fst kv ++ "=" ++ str_of (snd kv)) items))
  | _ => Err (TypeError "not a valid non-string sequence or mapping object")
  end.

(** The bytes the runs below decode are ASCII. *)
Definition decode_ascii (v : value) (encoding : string) : result value :=
  match v with
  | VBytes s => Ok (VStr s)
  | _ => Err (AttributeError "decode")
  end.

Definition platform : Platform := {|
  world := list answer;
  perform := next_answer;
  json_loads := loads_value;
  py_str := str_of;
  str_join := join;
  urlencode := encode_items;
  decode := decode_ascii;
  JWT_HASH_ALGORITHM := VStr "RS256";
|}.
End Scripted.

(** ** Vocabulary of the statements *)


(** The calls that carry a token request to the token endpoint. *)
Definition token_request (c : call) : bool :=
  match c with
  | credentials_refresh _ _
  | fire_request _ _
  | conn_request _ _ _ _ _
  | acquire_token_for_client _ _
  | requests_post _ _ => true
  | _ => false
  end.

(** An event that carries a token request to the endpoint. *)
Definition is_token_request (ev : event) : bool :=
  match ev with
  | Called c => token_request c
  | Logged _ _ => false
  end.

(** An event that is a log record. *)
Definition is_log (ev : event) : bool :=
  match ev with
  | Called _ => false
  | Logged _ _ => true
  end.

Section Vocabulary.
Context `{Platform}.


(** The four calls of one Auth0 exchange, as they are made. *)
Definition auth0_calls (domain : value) (body : string) (conn res : value) : list event :=
  [Called (HTTPSConnection domain);
   Called (conn_request conn (VStr "POST")
             (VStr ("/" ++ format domain ++ "/oauth/token")) (VStr body)
             Auth0AuthenticationProvider.headers);
   Called (conn_getresponse conn);
   Called (res_read res)].

(** In an Okta call started in [st], the clock reads [issued] and
    [uuid.uuid4()] hands out [jti]: the second and third library calls of
    the exchange. *)
Definition drawn (st : state OktaAuthenticationProvider.t) (issued : Z) (jti : string) : Prop :=
  exists privateKey pem jwk w1 w2 w3,
    getattr (OktaAuthenticationProvider.security_config (self st)) "privateKey"
      = Ok privateKey /\
    perform (JWT_get_PEM_JWK privateKey) (env st) = (Ok (pem, jwk), w1) /\
    perform time_time w1 = (Ok issued, w2) /\
    perform uuid_uuid4 w2 = (Ok jti, w3).
End Vocabulary.


(** The double quote, for JSON texts. *)
Definition dquote : string := String "034"%char EmptyString.

Definition quoted (s : string) : string := dquote ++ s ++ dquote.

(** [{"access_token":"abc","expires_in":3600}] *)
Definition token_body : string :=
  "{" ++ quoted "access_token" ++ ":" ++ quoted "abc" ++ ","
  ++ quoted "expires_in" ++ ":3600}".

(** What [json.loads] makes of [token_body]. *)
Definition token_dict : value :=
  VDict [("access_token", VStr "abc"); ("expires_in", VInt 3600)].

(** [{"error":"invalid_client"}] *)
Definition error_body : string :=
  "{" ++ quoted "error" ++ ":" ++ quoted "invalid_client" ++ "}".


(** [{"access_token":"xyz"}] *)
Definition token_only_body : string :=
  "{" ++ quoted "access_token" ++ ":" ++ quoted "xyz" ++ "}".

(** A server configuration "carries its credentials only under
    securityConfig" when none of the attributes the Azure provider reads
    exists on the configuration object itself. *)
Definition credentials_only_under_securityConfig (config : value) : Prop :=
  Forall (fun name => getattr config name = Err (AttributeError name))
    ["client_id"; "secret_key"; "authority"; "scopes"].

(** ** Concrete configurations and scripts

    The inputs the statements below are run on. *)
Module Cases.

(** A server configuration as the workflow hands it over: the credentials
    sit under [securityConfig]. *)
Definition server_config (authProvider : string) (securityConfig : value) : value :=
  VObj "OpenMetadataServerConfig"
    {[ "hostPort" := VStr "http://localhost:8585/api";
       "authProvider" := VStr authProvider;
       "securityConfig" := securityConfig ]}.

Definition google_security : value :=
  VObj "GoogleSSOConfig"
    {[ "secretKey" := VStr "/secrets/service-account.json";
       "audience" := VStr "https://metadata.example.com" ]}.

Definition okta_security : value :=
  VObj "OktaSSOConfig"
    {[ "clientId" := VStr "0oa1client";
       "orgURL" := VStr "https://dev-1.okta.com/oauth2/v1/token";
       "privateKey" := VStr "/secrets/okta.pem";
       "scopes" := VList [VStr "okta.users.read"] ]}.

Definition auth0_security : value :=
  VObj "Auth0SSOConfig"
    {[ "clientId" := VStr "cid";
       "secretKey" := VStr "s3cret";
       "domain" := VStr "tenant.auth0.com" ]}.

Definition azure_security : value :=
  VObj "AzureSSOConfig"
    {[ "clientId" := VStr "cid";
       "clientSecret" := VStr "s3cret";
       "authority" := VStr "https://login.microsoftonline.com/tenant";
       "scopes" := VList [VStr "api://metadata/.default"] ]}.

Definition oidc_security : value :=
  VObj "CustomOidcSSOConfig"
    {[ "clientId" := VStr "cid";
       "secretKey" := VStr "s3cret";
       "tokenEndpoint" := VStr "https://idp.example.com/token" ]}.

(** A configuration object that does carry the four attributes the Azure
    provider reads, as the docstrings' [MetadataServerConfig] would. *)
Definition flat_azure_config : value :=
  VObj "MetadataServerConfig"
    {[ "client_id" := VStr "cid";
       "secret_key" := VStr "s3cret";
       "authority" := VStr "https://login.microsoftonline.com/tenant";
       "scopes" := VList [VStr "api://metadata/.default"] ]}.

Definition google : GoogleAuthenticationProvider.t :=
  {| GoogleAuthenticationProvider.config := server_config "google" google_security;
     GoogleAuthenticationProvider.security_config := google_security;
     GoogleAuthenticationProvider.generated_auth_token := VNone;
     GoogleAuthenticationProvider.expiry := VNone |}.

Definition okta : OktaAuthenticationProvider.t :=
  {| OktaAuthenticationProvider.config := server_config "okta" okta_security;
     OktaAuthenticationProvider.security_config := okta_security;
     OktaAuthenticationProvider.generated_auth_token := VNone;
     OktaAuthenticationProvider.expiry := VNone |}.

Definition auth0 : Auth0AuthenticationProvider.t :=
  {| Auth0AuthenticationProvider.config := server_config "auth0" auth0_security;
     Auth0AuthenticationProvider.security_config := auth0_security;
     Auth0AuthenticationProvider.generated_auth_token := VNone;
     Auth0AuthenticationProvider.expiry := VNone |}.

Definition azure (config : value) : AzureAuthenticationProvider.t :=
  {| AzureAuthenticationProvider.config := config;
     AzureAuthenticationProvider.generated_auth_token := VNone;
     AzureAuthenticationProvider.expiry := VNone |}.

Definition oidc : CustomOIDCAuthenticationProvider.t :=
  {| CustomOIDCAuthenticationProvider.config := server_config "custom-oidc" oidc_security;
     CustomOIDCAuthenticationProvider.security_config := oidc_security;
     CustomOIDCAuthenticationProvider.generated_auth_token := VNone;
     CustomOIDCAuthenticationProvider.expiry := VNone |}.

(** A library object the model does not look into. *)
Definition handle (cls : string) : value := VObj cls ∅.

(** A run starts with the script as the world and no events. *)
Abbreviation start p script := (@State Scripted.platform _ p script []).

(** The key file is not there. *)
Definition no_key_file : Scripted.answer :=
  Scripted.Raises (LibraryError "FileNotFoundError" "No such file or directory").

(** The Okta SDK, given a path that does not exist, reads the path itself
    as a key and rejects it. *)
Definition not_a_key : Scripted.answer :=
  Scripted.Raises (LibraryError "ValueError" "RSA key format is not supported").

(** The expiry google-auth computes: an absolute time. *)
Definition google_expiry : value :=
  VObj "datetime" {[ "timestamp" := VInt 1700003600 ]}.

Definition google_script : list Scripted.answer :=
  [Scripted.Gives (handle "IDTokenCredentials");
   Scripted.Gives (handle "Request");
   Scripted.GivesPair (VStr "abc") google_expiry].

(** One Okta exchange: key, clock, identifier, key dict, signed assertion,
    cache, executor, request, and the answer to the request. *)
Definition okta_script (jti body : string) (err : value) : list Scripted.answer :=
  [Scripted.GivesPair (handle "RsaKey") (handle "JWK");
   Scripted.GivesInt 1700000000;
   Scripted.GivesStr jti;
   Scripted.Gives (VDict [("kty", VStr "RSA")]);
   Scripted.Gives (VStr "signed.assertion");
   Scripted.Gives (handle "OktaCache");
   Scripted.Gives (handle "RequestExecutor");
   Scripted.GivesPair (VDict [("method", VStr "POST")]) VNone;
   Scripted.GivesQuad (VDict [("method", VStr "POST")]) (handle "ClientResponse")
     (VStr body) err].

(** An [http.client] response; the provider never reads its status. *)
Definition http_response (status : Z) : value :=
  VObj "HTTPResponse" {[ "status" := VInt status ]}.

(** One Auth0 exchange: connection, request sent, response, body. *)
Definition auth0_script (status : Z) (body : string) : list Scripted.answer :=
  [Scripted.Gives (handle "HTTPSConnection");
   Scripted.Gives VNone;
   Scripted.Gives (http_response status);
   Scripted.Gives (VBytes body)].

(** One Azure exchange: the application, then the token result. *)
Definition azure_script (token : value) : list Scripted.answer :=
  [Scripted.Gives (handle "ConfidentialClientApplication"); Scripted.Gives token].


(** An HTTP response as [requests] presents it. *)
Definition http (status : Z) (body : string) : Response :=
  {| ok := negb ((400 <=? status) && (status <? 600));
     status_code := status;
     text := body;
     json := Scripted.loads body |}.

(** [{"access_token":"xyz","expires_in":60}] *)
Definition other_token_body : string :=
  "{" ++ quoted "access_token" ++ ":" ++ quoted "xyz" ++ ","
  ++ quoted "expires_in" ++ ":60}".

(** A Google provider built on the Okta security configuration. *)
Definition google_on_okta_configuration : GoogleAuthenticationProvider.t :=
  {| GoogleAuthenticationProvider.config :=
       server_config "google" okta_security;
     GoogleAuthenticationProvider.security_config := okta_security;
     GoogleAuthenticationProvider.generated_auth_token := VNone;
     GoogleAuthenticationProvider.expiry := VNone |}.

End Cases.

(** ** Proof steps *)

Ltac unfold_monad :=
  unfold bind, ret, raise, sys_exit, lift, gets, modify, ext, log,
    try_except_Exception, try_except_KeyError, asyncio_run.

(** Rewrite with what is known about the next thing the run asks for. *)
Ltac use_answer :=
  match goal with
  | E : perform ?c ?w = _ |- context [perform ?c ?w] => rewrite E
  | E : getattr ?o ?n = _ |- context [getattr ?o ?n] => rewrite E
  | E : getitem ?o ?n = _ |- context [getitem ?o ?n] => rewrite E
  | E : dict_get ?o ?n = _ |- context [dict_get ?o ?n] => rewrite E
  | E : json_loads ?v = _ |- context [json_loads ?v] => rewrite E
  | E : decode ?v ?c = _ |- context [decode ?v ?c] => rewrite E
  | E : ok ?r = _ |- context [ok ?r] => rewrite E
  | E : json ?r = _ |- context [json ?r] => rewrite E
  | E : truthy ?r = _ |- context [truthy ?r] => rewrite E
  end.

Ltac run := unfold_monad; simpl; repeat (use_answer; simpl).

(** One case split on the next thing the run depends on. *)
Ltac case_step :=
  match goal with
  | |- context [perform ?c ?w] =>
      let r := fresh "r" in
      let w' := fresh "w" in
      let E := fresh "E" in
      destruct (perform c w) as [r w'] eqn:E; destruct r as [?|?]
  | |- context [getattr ?o ?n] => let E := fresh "E" in destruct (getattr o n) eqn:E
  | |- context [getitem ?o ?n] => let E := fresh "E" in destruct (getitem o n) eqn:E
  | |- context [dict_get ?o ?n] => let E := fresh "E" in destruct (dict_get o n) eqn:E
  | |- context [json_loads ?v] => let E := fresh "E" in destruct (json_loads v) eqn:E
  | |- context [str_join ?s ?v] => let E := fresh "E" in destruct (str_join s v) eqn:E
  | |- context [urlencode ?v] => let E := fresh "E" in destruct (urlencode v) eqn:E
  | |- context [decode ?v ?c] => let E := fresh "E" in destruct (decode v c) eqn:E
  | |- context [truthy ?v] => let E := fresh "E" in destruct (truthy v) eqn:E
  | |- context [ok ?r] => let E := fresh "E" in destruct (ok r) eqn:E
  | |- context [json ?r] => let E := fresh "E" in destruct (json r) eqn:E
  | |- context [match ?v with (_, _) => _ end] => is_var v; destruct v
  | |- context [match ?e with KeyError _ => _ | _ => _ end] => is_var e; destruct e
  end.

Ltac cases := unfold_monad; simpl; repeat (case_step; simpl).

(** Bring the events of a finished run into the form [tr ++ evs]. *)
Ltac flatten_trace := rewrite <- ?app_assoc; simpl.

(** * What the providers do *)

(** ** Running the monad *)

Section Steps.
Context `{Platform} {Self : Type}.
Implicit Types st : state Self.

Lemma ext_answers c st v w :
  perform c (env st) = (Ok v, w) ->
  ext c st = (Ret v, State (self st) w (trace st ++ [Called c])).
Proof. intros E. unfold ext. now rewrite E. Qed.

Lemma ext_raises c st e w :
  perform c (env st) = (Err e, w) ->
  ext c st = (Raise e, State (self st) w (trace st ++ [Called c])).
Proof. intros E. unfold ext. now rewrite E. Qed.

(** The events a run added, read off a trace that grew by appending. *)
Lemma emitted_app (s s' : Self) (w w' : world) (tr evs : list event) :
  emitted (State s w tr) (State s' w' (tr ++ evs)) = evs.
Proof. unfold emitted. simpl. apply drop_app_length. Qed.

Lemma emitted_nil (s s' : Self) (w w' : world) (tr : list event) :
  emitted (State s w tr) (State s' w' tr) = [].
Proof. unfold emitted. simpl. apply drop_all. Qed.

(** A run is known by its outcome and the state it leaves. *)
Lemma run_with_its_state {A} (x : outcome A * state Self) o :
  fst x = o -> x = (o, snd x).
Proof. intros <-. now destruct x. Qed.

Lemma run_by_parts {A} (x : outcome A * state Self) o s w tr :
  fst x = o -> self (snd x) = s -> env (snd x) = w -> trace (snd x) = tr ->
  x = (o, State s w tr).
Proof. destruct x as [o' [s' w' tr']]. simpl. now intros <- <- <- <-. Qed.
End Steps.



(** ** The no-op provider *)

Section NoOpFacts.
Context `{Platform}.
Import NoOpAuthenticationProvider.

Lemma noop_sentinel (st : state t) :
  get_access_token st = (Ret (VStr "no_token", VNone), st).
Proof. reflexivity. Qed.

End NoOpFacts.

(** ** The Google provider *)

Section GoogleFacts.
Context `{Platform}.
Import GoogleAuthenticationProvider.


Lemma google_key_not_loaded (p : t) w tr key aud e w1 :
  getattr (security_config p) "secretKey" = Ok key ->
  getattr (security_config p) "audience" = Ok aud ->
  perform (IDTokenCredentials_from_service_account_file key aud) w = (Err e, w1) ->
  get_access_token (State p w tr) =
    (Raise e,
     State p w1 (tr ++ [Called (IDTokenCredentials_from_service_account_file key aud)])).
Proof. intros. unfold get_access_token, auth_token. run. reflexivity. Qed.




End GoogleFacts.

(** ** The generic OIDC provider *)

Section CustomOIDCFacts.
Context `{Platform}.
Import CustomOIDCAuthenticationProvider.


Lemma oidc_http_failure (p : t) w tr cid sk url resp w1 :
  getattr (security_config p) "clientId" = Ok cid ->
  getattr (security_config p) "secretKey" = Ok sk ->
  getattr (security_config p) "tokenEndpoint" = Ok url ->
  perform (requests_post url (data cid sk)) w = (Ok resp, w1) ->
  ok resp = false ->
  get_access_token (State p w tr) =
    (Raise (APIError (VDict [("message", VStr (text resp))]) (VInt (status_code resp))),
     State p w1 (tr ++ [Called (requests_post url (data cid sk))])).
Proof. intros. unfold get_access_token, auth_token. run. reflexivity. Qed.



End CustomOIDCFacts.

(** ** The Auth0 provider *)

Section Auth0Facts.
Context `{Platform}.
Import Auth0AuthenticationProvider.

Lemma auth0_returns_parsed (p : t) w tr domain cid sk conn sent res bytes decoded
    token tok exp w1 w2 w3 w4 :
  getattr (security_config p) "domain" = Ok domain ->
  getattr (security_config p) "clientId" = Ok cid ->
  getattr (security_config p) "secretKey" = Ok sk ->
  perform (HTTPSConnection domain) w = (Ok conn, w1) ->
  perform (conn_request conn (VStr "POST")
             (VStr ("/" ++ format domain ++ "/oauth/token"))
             (VStr (payload cid sk domain)) headers) w1 = (Ok sent, w2) ->
  perform (conn_getresponse conn) w2 = (Ok res, w3) ->
  perform (res_read res) w3 = (Ok bytes, w4) ->
  decode bytes "utf-8" = Ok decoded ->
  json_loads decoded = Ok token ->
  getitem token "access_token" = Ok tok ->
  getitem token "expires_in" = Ok exp ->
  get_access_token (State p w tr) =
    (Ret (tok, exp),
     State (set_expiry exp (set_generated_auth_token tok p)) w4
       (tr ++ auth0_calls domain (payload cid sk domain) conn res)).
Proof.
  intros. unfold get_access_token, auth_token, auth0_calls. run.
  flatten_trace. reflexivity.
Qed.




End Auth0Facts.

(** ** The Azure provider *)

Section AzureFacts.
Context `{Platform}.
Import AzureAuthenticationProvider.




Lemma azure_attribute_missing (p : t) w tr :
  getattr (config p) "client_id" = Err (AttributeError "client_id") ->
  get_access_token (State p w tr) = (Raise (AttributeError "client_id"), State p w tr).
Proof. intros. unfold get_access_token, auth_token. run. reflexivity. Qed.

(** The run is decided by the four attributes of the configuration object
    itself: the rest of it, [securityConfig] included, is not read. *)
Lemma azure_reads_top_level (p p' : t) w tr :
  Forall (fun name => getattr (config p) name = getattr (config p') name)
    ["client_id"; "secret_key"; "authority"; "scopes"] ->
  fst (get_access_token (State p w tr)) = fst (get_access_token (State p' w tr)) /\
  env (snd (get_access_token (State p w tr)))
    = env (snd (get_access_token (State p' w tr))) /\
  trace (snd (get_access_token (State p w tr)))
    = trace (snd (get_access_token (State p' w tr))).
Proof.
  intros F. repeat (apply Forall_cons_1 in F; destruct F as [? F]).
  unfold get_access_token, auth_token. unfold_monad. simpl.
  repeat match goal with E : getattr (config p) _ = _ |- _ => rewrite E; clear E end.
  repeat (case_step; simpl); repeat split; reflexivity.
Qed.


End AzureFacts.

(** ** The Okta provider *)

Section OktaFacts.
Context `{Platform}.
Import OktaAuthenticationProvider.

(** What is made of the SDK's answer when it reports no error: the two
    items are looked up with [get], so a missing one is [None]. *)
Lemma okta_stores_answer (st st1 : state t) req details res_json err response_dict tok exp :
  send_token_request st = (Ret (req, details, res_json, err), st1) ->
  truthy err = false ->
  json_loads res_json = Ok response_dict ->
  dict_get response_dict "access_token" = Ok tok ->
  dict_get response_dict "expires_in" = Ok exp ->
  get_access_token st =
    (Ret (tok, exp),
     State (set_expiry exp (set_generated_auth_token tok (self st1)))
       (env st1) (trace st1)).
Proof.
  intros Hsend. intros.
  unfold get_access_token, asyncio_run, auth_token, try_except_Exception, exchange, bind.
  rewrite Hsend. run. reflexivity.
Qed.


Lemma okta_key_not_loaded (p : t) w tr key e w1 :
  getattr (security_config p) "privateKey" = Ok key ->
  perform (JWT_get_PEM_JWK key) w = (Err e, w1) ->
  get_access_token (State p w tr) =
    (Exit VNone,
     State p w1 (tr ++ [Called (JWT_get_PEM_JWK key);
                        Logged "debug" e;
                        Logged "error" e])).
Proof.
  intros. unfold get_access_token, auth_token, exchange, send_token_request. run.
  flatten_trace. reflexivity.
Qed.




(** Every assertion handed to [jwt.encode] during a call has the claims
    the dict literal gives it: filled from the configuration, the clock
    reading and the identifier drawn in this very call. *)
Lemma okta_assertion (st st' : state t) r cl key alg :
  get_access_token st = (r, st') ->
  In (Called (jwt_encode cl key alg)) (emitted st st') ->
  exists privateKey pem jwk w1 issued w2 jti w3 clientId orgURL,
    getattr (security_config (self st)) "privateKey" = Ok privateKey /\
    perform (JWT_get_PEM_JWK privateKey) (env st) = (Ok (pem, jwk), w1) /\
    perform time_time w1 = (Ok issued, w2) /\
    perform uuid_uuid4 w2 = (Ok jti, w3) /\
    getattr (security_config (self st)) "clientId" = Ok clientId /\
    getattr (security_config (self st)) "orgURL" = Ok orgURL /\
    cl = claims clientId orgURL issued (issued + 3600) jti.
Proof.
  destruct st as [p w tr]. simpl self. simpl env.
  match goal with |- _ -> _ -> ?C => remember C as Claims eqn:HC end.
  unfold get_access_token, auth_token, exchange, send_token_request.
  cases; intros Hrun Hin; injection Hrun as <- <-;
    rewrite <- ?app_assoc in Hin; simpl in Hin;
    first [ rewrite emitted_app in Hin | rewrite emitted_nil in Hin ];
    simpl in Hin; intuition (try discriminate);
    match goal with
    | Heq : Called _ = Called _ |- _ => injection Heq as <- <- <-
    end;
    subst Claims; repeat eexists; eauto.
Qed.
End OktaFacts.

(** * The claims *)






(** C4.  The no-op provider: whatever the configuration, the state of the
    world and the cached fields, [get_access_token] returns the pair
    [("no_token", None)] and leaves everything as it was -- no library is
    called, so nothing goes over the network. *)
Theorem noop_returns_sentinel_without_io `{Platform}
    (config : value) (w : world) (tr : list event) :
  exists p,
    NoOpAuthenticationProvider.create config = Ok p /\
    NoOpAuthenticationProvider.get_access_token (State p w tr)
      = (Ret (VStr "no_token", VNone), State p w tr) /\
    emitted (State p w tr)
      (snd (NoOpAuthenticationProvider.get_access_token (State p w tr))) = [].
Proof.
  eexists. split; [reflexivity|]. split; [apply noop_sentinel|].
  rewrite noop_sentinel. apply emitted_nil.
Qed.

(** C10.  The Azure provider reads [client_id], [secret_key], [authority]
    and [scopes] from the configuration object itself: its run is decided by
    these four attributes alone, and when the configuration carries its
    credentials only under [securityConfig] the first read fails with
    AttributeError before any library is called. *)
Theorem azure_reads_credentials_from_top_level `{Platform} :
  (forall (p : AzureAuthenticationProvider.t) w tr,
     credentials_only_under_securityConfig (AzureAuthenticationProvider.config p) ->
     AzureAuthenticationProvider.get_access_token (State p w tr)
       = (Raise (AttributeError "client_id"), State p w tr)) /\
  (forall (p p' : AzureAuthenticationProvider.t) w tr,
     Forall (fun name =>
               getattr (AzureAuthenticationProvider.config p) name
               = getattr (AzureAuthenticationProvider.config p') name)
       ["client_id"; "secret_key"; "authority"; "scopes"] ->
     let r := AzureAuthenticationProvider.get_access_token (State p w tr) in
     let r' := AzureAuthenticationProvider.get_access_token (State p' w tr) in
     fst r = fst r' /\ env (snd r) = env (snd r') /\ trace (snd r) = trace (snd r')).
Proof.
  split.
  - intros p w tr Hcfg. apply azure_attribute_missing.
    unfold credentials_only_under_securityConfig in Hcfg.
    apply Forall_cons_1 in Hcfg. apply Hcfg.
  - intros p p' w tr Hsame. apply azure_reads_top_level, Hsame.
Qed.

(** A configuration with the credentials under [securityConfig], and an
    answer ready for every call: the Azure provider fails before asking. *)
Lemma azure_standard_configuration_fails :
  credentials_only_under_securityConfig (Cases.server_config "azure" Cases.azure_security) /\
  AzureAuthenticationProvider.get_access_token
    (Cases.start (Cases.azure (Cases.server_config "azure" Cases.azure_security))
       (Cases.azure_script token_dict))
  = (Raise (AttributeError "client_id"),
     Cases.start (Cases.azure (Cases.server_config "azure" Cases.azure_security))
       (Cases.azure_script token_dict)).
Proof.
  assert (Hcfg : credentials_only_under_securityConfig
                   (Cases.server_config "azure" Cases.azure_security)).
  { unfold credentials_only_under_securityConfig. repeat constructor. }
  split; [exact Hcfg|].
  apply (proj1 (@azure_reads_credentials_from_top_level Scripted.platform)).
  exact Hcfg.
Defined.

(** C9.  The Okta provider, when the exchange completes and the SDK reports
    no error: whatever JSON object the body holds, [get_access_token] raises
    nothing and returns the two items as [dict.get] finds them, [None] for
    each one the body lacks -- [(None, None)] when it lacks both. *)
Theorem okta_missing_fields_become_none `{Platform}
    (st st1 : state OktaAuthenticationProvider.t) req details res_json err items :
  OktaAuthenticationProvider.send_token_request st
    = (Ret (req, details, res_json, err), st1) ->
  truthy err = false ->
  json_loads res_json = Ok (VDict items) ->
  fst (OktaAuthenticationProvider.get_access_token st)
    = Ret (default VNone (dict_lookup "access_token" items),
           default VNone (dict_lookup "expires_in" items)) /\
  (dict_lookup "access_token" items = None ->
   dict_lookup "expires_in" items = None ->
   fst (OktaAuthenticationProvider.get_access_token st) = Ret (VNone, VNone)).
Proof.
  intros Hsend Herr Hjson.
  assert (Hget : fst (OktaAuthenticationProvider.get_access_token st)
                 = Ret (default VNone (dict_lookup "access_token" items),
                        default VNone (dict_lookup "expires_in" items))).
  { erewrite okta_stores_answer; [reflexivity | eassumption | assumption | eassumption | | ];
      simpl; destruct (dict_lookup _ items); reflexivity. }
  split; [exact Hget|].
  intros Ha He. rewrite Hget, Ha, He. reflexivity.
Qed.

(** An Okta exchange whose answer is [{"error":"invalid_client"}] with no
    error reported by the SDK: the caller gets [(None, None)]. *)
Lemma okta_error_body_returns_none :
  fst (OktaAuthenticationProvider.get_access_token
         (Cases.start Cases.okta (Cases.okta_script "id-1" error_body VNone)))
    = Ret (VNone, VNone).
Proof.
  apply (@okta_missing_fields_become_none Scripted.platform _
           (snd (OktaAuthenticationProvider.send_token_request
                   (Cases.start Cases.okta (Cases.okta_script "id-1" error_body VNone))))
           (VDict [("method", VStr "POST")]) (Cases.handle "ClientResponse")
           (VStr error_body) VNone [("error", VStr "invalid_client")]);
    [ apply run_with_its_state | | | | ]; vm_compute; reflexivity.
Defined.

(** C8.  The Auth0 provider opens an HTTPS connection to the configured
    domain and sends one POST to [/<domain>/oauth/token] with the form body
    [grant_type=client_credentials&client_id=<clientId>&client_secret=<secretKey>&audience=https://<domain>/api/v2/]
    and the form content type; it decodes the response body, reads it as
    JSON, and returns its [access_token] and [expires_in]. *)
Theorem auth0_posts_form_and_parses_json `{Platform}
    (p : Auth0AuthenticationProvider.t) w tr domain clientId secretKey
    conn sent res bytes decoded token access_token expires_in w1 w2 w3 w4 :
  let body :=
    "grant_type=client_credentials&client_id=" ++ clientId
    ++ "&client_secret=" ++ secretKey
    ++ "&audience=https://" ++ domain ++ "/api/v2/" in
  let request :=
    conn_request conn (VStr "POST") (VStr ("/" ++ domain ++ "/oauth/token")) (VStr body)
      (VDict [("content-type", VStr "application/x-www-form-urlencoded")]) in
  getattr (Auth0AuthenticationProvider.security_config p) "domain" = Ok (VStr domain) ->
  getattr (Auth0AuthenticationProvider.security_config p) "clientId" = Ok (VStr clientId) ->
  getattr (Auth0AuthenticationProvider.security_config p) "secretKey" = Ok (VStr secretKey) ->
  perform (HTTPSConnection (VStr domain)) w = (Ok conn, w1) ->
  perform request w1 = (Ok sent, w2) ->
  perform (conn_getresponse conn) w2 = (Ok res, w3) ->
  perform (res_read res) w3 = (Ok bytes, w4) ->
  decode bytes "utf-8" = Ok decoded ->
  json_loads decoded = Ok token ->
  getitem token "access_token" = Ok access_token ->
  getitem token "expires_in" = Ok expires_in ->
  Auth0AuthenticationProvider.get_access_token (State p w tr) =
    (Ret (access_token, expires_in),
     State (Auth0AuthenticationProvider.set_expiry expires_in
              (Auth0AuthenticationProvider.set_generated_auth_token access_token p))
       w4
       (tr ++ [Called (HTTPSConnection (VStr domain));
               Called request;
               Called (conn_getresponse conn);
               Called (res_read res)])).
Proof.
  intros body request ? ? ? ? ? ? ? ? ? ? ?.
  erewrite auth0_returns_parsed by eassumption. reflexivity.
Qed.

(** The Auth0 provider against a scripted endpoint: the request that goes
    out and the pair that comes back. *)
Lemma auth0_on_scripted_endpoint :
  let r := Auth0AuthenticationProvider.get_access_token
             (Cases.start Cases.auth0 (Cases.auth0_script 200 token_body)) in
  fst r = Ret (VStr "abc", VInt 3600) /\
  trace (snd r) =
    [Called (HTTPSConnection (VStr "tenant.auth0.com"));
     Called (conn_request (Cases.handle "HTTPSConnection") (VStr "POST")
               (VStr "/tenant.auth0.com/oauth/token")
               (VStr ("grant_type=client_credentials&client_id=cid&client_secret=s3cret"
                      ++ "&audience=https://tenant.auth0.com/api/v2/"))
               (VDict [("content-type", VStr "application/x-www-form-urlencoded")]));
     Called (conn_getresponse (Cases.handle "HTTPSConnection"));
     Called (res_read (Cases.http_response 200))].
Proof.
  intros r. subst r.
  erewrite (@auth0_posts_form_and_parses_json Scripted.platform Cases.auth0
              _ [] "tenant.auth0.com" "cid" "s3cret");
    [ split; reflexivity | reflexivity .. ].
Defined.







(** C6, as the code has it.  When the private key cannot be loaded, the
    Google provider fails with the exception of the SDK's key loader and
    the Okta provider ends the process; in both the key loader is the only
    library called, so no request goes out. *)
Theorem key_not_loaded_before_any_request `{Platform} :
  (forall (p : GoogleAuthenticationProvider.t) w tr key aud e w1,
     getattr (GoogleAuthenticationProvider.security_config p) "secretKey" = Ok key ->
     getattr (GoogleAuthenticationProvider.security_config p) "audience" = Ok aud ->
     perform (IDTokenCredentials_from_service_account_file key aud) w = (Err e, w1) ->
     GoogleAuthenticationProvider.get_access_token (State p w tr)
       = (Raise e,
          State p w1
            (tr ++ [Called (IDTokenCredentials_from_service_account_file key aud)]))) /\
  (forall (p : OktaAuthenticationProvider.t) w tr key e w1,
     getattr (OktaAuthenticationProvider.security_config p) "privateKey" = Ok key ->
     perform (JWT_get_PEM_JWK key) w = (Err e, w1) ->
     OktaAuthenticationProvider.get_access_token (State p w tr)
       = (Exit VNone,
          State p w1
            (tr ++ [Called (JWT_get_PEM_JWK key); Logged "debug" e; Logged "error" e]))).
Proof.
  split; intros.
  - eapply google_key_not_loaded; eassumption.
  - eapply okta_key_not_loaded; eassumption.
Qed.

(** The two providers with the key file missing. *)
Lemma key_file_missing_on_scripted_platform :
  (let r := GoogleAuthenticationProvider.get_access_token
              (Cases.start Cases.google [Cases.no_key_file]) in
   fst r = Raise (LibraryError "FileNotFoundError" "No such file or directory") /\
   trace (snd r)
     = [Called (IDTokenCredentials_from_service_account_file
                  (VStr "/secrets/service-account.json")
                  (VStr "https://metadata.example.com"))]) /\
  (let r := OktaAuthenticationProvider.get_access_token
              (Cases.start Cases.okta [Cases.not_a_key]) in
   fst r = Exit VNone /\
   trace (snd r)
     = [Called (JWT_get_PEM_JWK (VStr "/secrets/okta.pem"));
        Logged "debug" (LibraryError "ValueError" "RSA key format is not supported");
        Logged "error" (LibraryError "ValueError" "RSA key format is not supported")]).
Proof.
  destruct (@key_not_loaded_before_any_request Scripted.platform) as [Hgoogle Hokta].
  split; intros r; subst r.
  - erewrite Hgoogle; [split; reflexivity | reflexivity ..].
  - erewrite Hokta; [split; reflexivity | reflexivity ..].
Defined.

(** C6 fails on the Okta provider: with the key file missing the call
    raises no error at all, it ends the process. *)
Lemma okta_missing_key_is_not_an_error :
  ~ (exists e, fst (OktaAuthenticationProvider.get_access_token
                      (Cases.start Cases.okta [Cases.not_a_key])) = Raise e).
Proof.
  intros [e He].
  assert (Hrun : fst (OktaAuthenticationProvider.get_access_token
                        (Cases.start Cases.okta [Cases.not_a_key])) = Exit VNone)
    by (vm_compute; reflexivity).
  rewrite Hrun in He. discriminate He.
Qed.

Section Drawn.
Context `{Platform}.

Lemma drawn_once (st : state OktaAuthenticationProvider.t) iat jti iat' jti' :
  drawn st iat jti -> drawn st iat' jti' -> iat = iat' /\ jti = jti'.
Proof.
  intros (k & pem & jwk & w1 & w2 & w3 & Hk & Hkey & Htime & Hid)
         (k' & pem' & jwk' & w1' & w2' & w3' & Hk' & Hkey' & Htime' & Hid').
  rewrite Hk in Hk'. injection Hk' as <-.
  rewrite Hkey in Hkey'. injection Hkey' as <- <- <-.
  rewrite Htime in Htime'. injection Htime' as <- <-.
  rewrite Hid in Hid'. injection Hid' as <- <-.
  split; reflexivity.
Qed.
End Drawn.

(** C5.  Every assertion the Okta provider hands to [jwt.encode] has [sub]
    and [iss] equal to the configured [clientId], [aud] equal to the
    configured [orgURL], [exp - iat] equal to 3600 with [iat] the clock
    reading of this call, and as [jti] the identifier [uuid.uuid4()] handed
    out in this very call; so the assertions of two consecutive calls differ
    in their [jti] whenever the two identifiers drawn differ. *)
Theorem okta_assertion_claims `{Platform} :
  (forall (st st' : state OktaAuthenticationProvider.t) r cl key alg,
     OktaAuthenticationProvider.get_access_token st = (r, st') ->
     In (Called (jwt_encode cl key alg)) (emitted st st') ->
     exists clientId orgURL iat exp jti,
       getattr (OktaAuthenticationProvider.security_config (self st)) "clientId"
         = Ok clientId /\
       getattr (OktaAuthenticationProvider.security_config (self st)) "orgURL"
         = Ok orgURL /\
       drawn st iat jti /\
       cl = OktaAuthenticationProvider.claims clientId orgURL iat exp jti /\
       getitem cl "sub" = Ok clientId /\
       getitem cl "iss" = Ok clientId /\
       getitem cl "aud" = Ok orgURL /\
       getitem cl "iat" = Ok (VInt iat) /\
       getitem cl "exp" = Ok (VInt exp) /\
       exp - iat = 3600 /\
       getitem cl "jti" = Ok (VStr jti)) /\
  (forall (st0 st1 st2 : state OktaAuthenticationProvider.t) r1 r2
          cl1 key1 alg1 cl2 key2 alg2 iat1 jti1 iat2 jti2,
     OktaAuthenticationProvider.get_access_token st0 = (r1, st1) ->
     OktaAuthenticationProvider.get_access_token st1 = (r2, st2) ->
     In (Called (jwt_encode cl1 key1 alg1)) (emitted st0 st1) ->
     In (Called (jwt_encode cl2 key2 alg2)) (emitted st1 st2) ->
     drawn st0 iat1 jti1 ->
     drawn st1 iat2 jti2 ->
     jti1 <> jti2 ->
     getitem cl1 "jti" = Ok (VStr jti1) /\
     getitem cl2 "jti" = Ok (VStr jti2) /\
     getitem cl1 "jti" <> getitem cl2 "jti").
Proof.
  assert (Hone : forall (st st' : state OktaAuthenticationProvider.t) r cl key alg,
     OktaAuthenticationProvider.get_access_token st = (r, st') ->
     In (Called (jwt_encode cl key alg)) (emitted st st') ->
     exists clientId orgURL iat exp jti,
       getattr (OktaAuthenticationProvider.security_config (self st)) "clientId"
         = Ok clientId /\
       getattr (OktaAuthenticationProvider.security_config (self st)) "orgURL"
         = Ok orgURL /\
       drawn st iat jti /\
       cl = OktaAuthenticationProvider.claims clientId orgURL iat exp jti /\
       getitem cl "sub" = Ok clientId /\
       getitem cl "iss" = Ok clientId /\
       getitem cl "aud" = Ok orgURL /\
       getitem cl "iat" = Ok (VInt iat) /\
       getitem cl "exp" = Ok (VInt exp) /\
       exp - iat = 3600 /\
       getitem cl "jti" = Ok (VStr jti)).
  { intros st st' r cl key alg Hrun Hin.
    destruct (okta_assertion st st' r cl key alg Hrun Hin)
      as (k & pem & jwk & w1 & iat & w2 & jti & w3 & cid & org
          & Hk & Hkey & Htime & Hid & Hcid & Horg & ->).
    exists cid, org, iat, (iat + 3600), jti.
    repeat match goal with |- _ /\ _ => split end;
      try assumption; try reflexivity; try lia.
    exists k, pem, jwk, w1, w2, w3. repeat split; assumption. }
  split; [exact Hone|].
  intros st0 st1 st2 r1 r2 cl1 key1 alg1 cl2 key2 alg2 iat1 jti1 iat2 jti2
         Hrun1 Hrun2 Hin1 Hin2 Hd1 Hd2 Hne.
  destruct (Hone _ _ _ _ _ _ Hrun1 Hin1)
    as (? & ? & i1 & ? & j1 & _ & _ & Hd1' & _ & _ & _ & _ & _ & _ & _ & Hj1).
  destruct (Hone _ _ _ _ _ _ Hrun2 Hin2)
    as (? & ? & i2 & ? & j2 & _ & _ & Hd2' & _ & _ & _ & _ & _ & _ & _ & Hj2).
  destruct (drawn_once _ _ _ _ _ Hd1 Hd1') as [_ <-].
  destruct (drawn_once _ _ _ _ _ Hd2 Hd2') as [_ <-].
  repeat split; try assumption.
  rewrite Hj1, Hj2. intros Heq. injection Heq as Heq. exact (Hne Heq).
Qed.

(** Two Okta calls in a row; the SDK hands out ["id-1"], then ["id-2"]. *)
Lemma okta_two_assertions_differ :
  let st0 := Cases.start Cases.okta
               (Cases.okta_script "id-1" token_body VNone
                ++ Cases.okta_script "id-2" Cases.other_token_body VNone)%list in
  let st1 := snd (OktaAuthenticationProvider.get_access_token st0) in
  let st2 := snd (OktaAuthenticationProvider.get_access_token st1) in
  let assertion jti :=
    OktaAuthenticationProvider.claims (VStr "0oa1client")
      (VStr "https://dev-1.okta.com/oauth2/v1/token") 1700000000 1700003600 jti in
  In (Called (jwt_encode (assertion "id-1") (VDict [("kty", VStr "RSA")]) (VStr "RS256")))
     (emitted st0 st1) /\
  In (Called (jwt_encode (assertion "id-2") (VDict [("kty", VStr "RSA")]) (VStr "RS256")))
     (emitted st1 st2) /\
  getitem (assertion "id-1") "jti" <> getitem (assertion "id-2") "jti".
Proof.
  intros st0 st1 st2 assertion.
  assert (Hin1 : In (Called (jwt_encode (assertion "id-1")
                               (VDict [("kty", VStr "RSA")]) (VStr "RS256")))
                    (emitted st0 st1)).
  { vm_compute; intuition reflexivity. }
  assert (Hin2 : In (Called (jwt_encode (assertion "id-2")
                               (VDict [("kty", VStr "RSA")]) (VStr "RS256")))
                    (emitted st1 st2)).
  { vm_compute; intuition reflexivity. }
  assert (Hd1 : drawn st0 1700000000 "id-1").
  { exists (VStr "/secrets/okta.pem"), (Cases.handle "RsaKey"), (Cases.handle "JWK").
    do 3 eexists; repeat split; reflexivity. }
  assert (Hd2 : drawn st1 1700000000 "id-2").
  { exists (VStr "/secrets/okta.pem"), (Cases.handle "RsaKey"), (Cases.handle "JWK").
    do 3 eexists; repeat split; reflexivity. }
  split; [exact Hin1 | split; [exact Hin2 | ] ].
  eapply (proj2 (@okta_assertion_claims Scripted.platform)
            st0 st1 st2 _ _ _ _ _ _ _ _ _ "id-1" _ "id-2");
    [ apply surjective_pairing | apply surjective_pairing
    | exact Hin1 | exact Hin2 | exact Hd1 | exact Hd2 | discriminate ].
Defined.




(** * Further properties of the providers *)

(** Bring the events a finished run added into the open. *)
Ltac read_emitted :=
  rewrite <- ?app_assoc; simpl;
  first [ rewrite emitted_app | rewrite emitted_nil ]; simpl.

(** ** Construction *)

(** X1.  [create] reads [config.securityConfig] and nothing else.  For the
    Google, Okta, Auth0 and generic OIDC providers a configuration object
    without that attribute fails construction with the AttributeError; a
    configuration whose [securityConfig] is [None] constructs a provider
    with an empty cache whose first [get_access_token] fails on the first
    attribute it reads, before any library is called -- raised to the caller
    for Google, Auth0 and OIDC, turned into the end of the process by Okta.
    The no-op and Azure providers are constructed from any value at all. *)
Theorem construction_reads_security_config `{Platform} (config : value) :
  (forall e,
     getattr config "securityConfig" = Err e ->
     GoogleAuthenticationProvider.create config = Err e /\
     OktaAuthenticationProvider.create config = Err e /\
     Auth0AuthenticationProvider.create config = Err e /\
     CustomOIDCAuthenticationProvider.create config = Err e) /\
  (getattr config "securityConfig" = Ok VNone ->
   forall w tr,
     (exists p,
        GoogleAuthenticationProvider.create config = Ok p /\
        GoogleAuthenticationProvider.get_access_token (State p w tr)
          = (Raise (AttributeError "secretKey"), State p w tr)) /\
     (exists p,
        Auth0AuthenticationProvider.create config = Ok p /\
        Auth0AuthenticationProvider.get_access_token (State p w tr)
          = (Raise (AttributeError "domain"), State p w tr)) /\
     (exists p,
        CustomOIDCAuthenticationProvider.create config = Ok p /\
        CustomOIDCAuthenticationProvider.get_access_token (State p w tr)
          = (Raise (AttributeError "clientId"), State p w tr)) /\
     (exists p,
        OktaAuthenticationProvider.create config = Ok p /\
        OktaAuthenticationProvider.get_access_token (State p w tr)
          = (Exit VNone,
             State p w (tr ++ [Logged "debug" (AttributeError "privateKey");
                               Logged "error" (AttributeError "privateKey")])))) /\
  (exists p, NoOpAuthenticationProvider.create config = Ok p
             /\ NoOpAuthenticationProvider.config p = config) /\
  (exists p, AzureAuthenticationProvider.create config = Ok p
             /\ AzureAuthenticationProvider.config p = config
             /\ AzureAuthenticationProvider.generated_auth_token p = VNone
             /\ AzureAuthenticationProvider.expiry p = VNone).
Proof.
  refine (conj _ (conj _ (conj _ _))).
  - intros e He.
    unfold GoogleAuthenticationProvider.create, GoogleAuthenticationProvider.__init__,
      OktaAuthenticationProvider.create, OktaAuthenticationProvider.__init__,
      Auth0AuthenticationProvider.create, Auth0AuthenticationProvider.__init__,
      CustomOIDCAuthenticationProvider.create, CustomOIDCAuthenticationProvider.__init__.
    rewrite He. repeat split.
  - intros Hnone w tr.
    unfold GoogleAuthenticationProvider.create, GoogleAuthenticationProvider.__init__,
      OktaAuthenticationProvider.create, OktaAuthenticationProvider.__init__,
      Auth0AuthenticationProvider.create, Auth0AuthenticationProvider.__init__,
      CustomOIDCAuthenticationProvider.create, CustomOIDCAuthenticationProvider.__init__.
    rewrite Hnone.
    refine (conj _ (conj _ (conj _ _))); eexists; (split; [reflexivity|]).
    + reflexivity.
    + reflexivity.
    + reflexivity.
    + unfold OktaAuthenticationProvider.get_access_token,
        OktaAuthenticationProvider.auth_token, OktaAuthenticationProvider.exchange,
        OktaAuthenticationProvider.send_token_request.
      run. flatten_trace. reflexivity.
  - eexists. split; reflexivity.
  - eexists. repeat split; reflexivity.
Qed.

(** A configuration without a security section, handed to [create]. *)
Lemma provider_without_security_section :
  exists p,
    Auth0AuthenticationProvider.create
      (Cases.server_config "auth0" VNone) = Ok p /\
    Auth0AuthenticationProvider.get_access_token
      (Cases.start p (Cases.auth0_script 200 token_body))
    = (Raise (AttributeError "domain"),
       Cases.start p (Cases.auth0_script 200 token_body)).
Proof.
  destruct (proj1 (proj2 (@construction_reads_security_config Scripted.platform
                            (Cases.server_config "auth0" VNone)))
              eq_refl (Cases.auth0_script 200 token_body) [])
    as (_ & Hauth0 & _).
  exact Hauth0.
Defined.

(** ** What a call leaves on the provider *)

(** X2.  No call changes the configuration a provider was built with:
    whatever the outcome, [config] and [security_config] are afterwards
    what they were. *)
Theorem configuration_is_never_changed `{Platform} :
  (forall st : state GoogleAuthenticationProvider.t,
     let st' := snd (GoogleAuthenticationProvider.get_access_token st) in
     GoogleAuthenticationProvider.config (self st')
       = GoogleAuthenticationProvider.config (self st) /\
     GoogleAuthenticationProvider.security_config (self st')
       = GoogleAuthenticationProvider.security_config (self st)) /\
  (forall st : state OktaAuthenticationProvider.t,
     let st' := snd (OktaAuthenticationProvider.get_access_token st) in
     OktaAuthenticationProvider.config (self st')
       = OktaAuthenticationProvider.config (self st) /\
     OktaAuthenticationProvider.security_config (self st')
       = OktaAuthenticationProvider.security_config (self st)) /\
  (forall st : state Auth0AuthenticationProvider.t,
     let st' := snd (Auth0AuthenticationProvider.get_access_token st) in
     Auth0AuthenticationProvider.config (self st')
       = Auth0AuthenticationProvider.config (self st) /\
     Auth0AuthenticationProvider.security_config (self st')
       = Auth0AuthenticationProvider.security_config (self st)) /\
  (forall st : state AzureAuthenticationProvider.t,
     let st' := snd (AzureAuthenticationProvider.get_access_token st) in
     AzureAuthenticationProvider.config (self st')
       = AzureAuthenticationProvider.config (self st)) /\
  (forall st : state CustomOIDCAuthenticationProvider.t,
     let st' := snd (CustomOIDCAuthenticationProvider.get_access_token st) in
     CustomOIDCAuthenticationProvider.config (self st')
       = CustomOIDCAuthenticationProvider.config (self st) /\
     CustomOIDCAuthenticationProvider.security_config (self st')
       = CustomOIDCAuthenticationProvider.security_config (self st)).
Proof.
  refine (conj _ (conj _ (conj _ (conj _ _)))); intros [p w tr]; simpl.
  - unfold GoogleAuthenticationProvider.get_access_token,
      GoogleAuthenticationProvider.auth_token.
    cases; split; reflexivity.
  - unfold OktaAuthenticationProvider.get_access_token,
      OktaAuthenticationProvider.auth_token, OktaAuthenticationProvider.exchange,
      OktaAuthenticationProvider.send_token_request.
    cases; split; reflexivity.
  - unfold Auth0AuthenticationProvider.get_access_token,
      Auth0AuthenticationProvider.auth_token.
    cases; split; reflexivity.
  - unfold AzureAuthenticationProvider.get_access_token,
      AzureAuthenticationProvider.auth_token.
    cases; reflexivity.
  - unfold CustomOIDCAuthenticationProvider.get_access_token,
      CustomOIDCAuthenticationProvider.auth_token.
    cases; split; reflexivity.
Qed.

(** X3.  The pair a call returns is the pair it leaves on the provider:
    after a call that returns [(token, expiry)], [generated_auth_token] is
    [token] and [expiry] is [expiry]. *)
Theorem returned_pair_is_stored `{Platform} :
  (forall (st st' : state GoogleAuthenticationProvider.t) token expiry,
     GoogleAuthenticationProvider.get_access_token st = (Ret (token, expiry), st') ->
     GoogleAuthenticationProvider.generated_auth_token (self st') = token /\
     GoogleAuthenticationProvider.expiry (self st') = expiry) /\
  (forall (st st' : state OktaAuthenticationProvider.t) token expiry,
     OktaAuthenticationProvider.get_access_token st = (Ret (token, expiry), st') ->
     OktaAuthenticationProvider.generated_auth_token (self st') = token /\
     OktaAuthenticationProvider.expiry (self st') = expiry) /\
  (forall (st st' : state Auth0AuthenticationProvider.t) token expiry,
     Auth0AuthenticationProvider.get_access_token st = (Ret (token, expiry), st') ->
     Auth0AuthenticationProvider.generated_auth_token (self st') = token /\
     Auth0AuthenticationProvider.expiry (self st') = expiry) /\
  (forall (st st' : state AzureAuthenticationProvider.t) token expiry,
     AzureAuthenticationProvider.get_access_token st = (Ret (token, expiry), st') ->
     AzureAuthenticationProvider.generated_auth_token (self st') = token /\
     AzureAuthenticationProvider.expiry (self st') = expiry) /\
  (forall (st st' : state CustomOIDCAuthenticationProvider.t) token expiry,
     CustomOIDCAuthenticationProvider.get_access_token st = (Ret (token, expiry), st') ->
     CustomOIDCAuthenticationProvider.generated_auth_token (self st') = token /\
     CustomOIDCAuthenticationProvider.expiry (self st') = expiry).
Proof.
  refine (conj _ (conj _ (conj _ (conj _ _)))); intros [p w tr] st' token expiry.
  - unfold GoogleAuthenticationProvider.get_access_token,
      GoogleAuthenticationProvider.auth_token.
    cases; intros Hrun; try discriminate Hrun; injection Hrun as <- <- <-;
      split; reflexivity.
  - unfold OktaAuthenticationProvider.get_access_token,
      OktaAuthenticationProvider.auth_token, OktaAuthenticationProvider.exchange,
      OktaAuthenticationProvider.send_token_request.
    cases; intros Hrun; try discriminate Hrun; injection Hrun as <- <- <-;
      split; reflexivity.
  - unfold Auth0AuthenticationProvider.get_access_token,
      Auth0AuthenticationProvider.auth_token.
    cases; intros Hrun; try discriminate Hrun; injection Hrun as <- <- <-;
      split; reflexivity.
  - unfold AzureAuthenticationProvider.get_access_token,
      AzureAuthenticationProvider.auth_token.
    cases; intros Hrun; try discriminate Hrun; injection Hrun as <- <- <-;
      split; reflexivity.
  - unfold CustomOIDCAuthenticationProvider.get_access_token,
      CustomOIDCAuthenticationProvider.auth_token.
    cases; intros Hrun; try discriminate Hrun; injection Hrun as <- <- <-;
      split; reflexivity.
Qed.

(** The generic OIDC provider after a call that returned. *)
Lemma oidc_holds_what_it_returned :
  let st' := snd (CustomOIDCAuthenticationProvider.get_access_token
                    (Cases.start Cases.oidc
                       [Scripted.GivesResponse (Cases.http 200 token_body)])) in
  CustomOIDCAuthenticationProvider.generated_auth_token (self st') = VStr "abc" /\
  CustomOIDCAuthenticationProvider.expiry (self st') = VInt 3600.
Proof.
  intros st'.
  apply (proj2 (proj2 (proj2 (proj2 (@returned_pair_is_stored Scripted.platform))))
           (Cases.start Cases.oidc [Scripted.GivesResponse (Cases.http 200 token_body)])).
  apply run_with_its_state. vm_compute. reflexivity.
Defined.

(** X4.  An answer with [access_token] but without [expires_in] is stored
    by halves.  The token is assigned before the expiry is looked up, so
    when that lookup fails the provider holds the new token beside the
    expiry it had: the Auth0 and generic OIDC providers raise
    [KeyError('expires_in')], the Azure provider ends the process with
    status 1. *)
Theorem answer_without_expiry_is_half_stored `{Platform} :
  (forall (p : CustomOIDCAuthenticationProvider.t) w tr cid sk url resp items token w1,
     getattr (CustomOIDCAuthenticationProvider.security_config p) "clientId" = Ok cid ->
     getattr (CustomOIDCAuthenticationProvider.security_config p) "secretKey" = Ok sk ->
     getattr (CustomOIDCAuthenticationProvider.security_config p) "tokenEndpoint" = Ok url ->
     perform (requests_post url (CustomOIDCAuthenticationProvider.data cid sk)) w
       = (Ok resp, w1) ->
     ok resp = true ->
     json resp = Ok (VDict items) ->
     dict_lookup "access_token" items = Some token ->
     dict_lookup "expires_in" items = None ->
     let r := CustomOIDCAuthenticationProvider.get_access_token (State p w tr) in
     fst r = Raise (KeyError "expires_in") /\
     CustomOIDCAuthenticationProvider.generated_auth_token (self (snd r)) = token /\
     CustomOIDCAuthenticationProvider.expiry (self (snd r))
       = CustomOIDCAuthenticationProvider.expiry p) /\
  (forall (p : Auth0AuthenticationProvider.t) w tr domain cid sk conn sent res bytes
          decoded items token w1 w2 w3 w4,
     getattr (Auth0AuthenticationProvider.security_config p) "domain" = Ok domain ->
     getattr (Auth0AuthenticationProvider.security_config p) "clientId" = Ok cid ->
     getattr (Auth0AuthenticationProvider.security_config p) "secretKey" = Ok sk ->
     perform (HTTPSConnection domain) w = (Ok conn, w1) ->
     perform (conn_request conn (VStr "POST")
                (VStr ("/" ++ format domain ++ "/oauth/token"))
                (VStr (Auth0AuthenticationProvider.payload cid sk domain))
                Auth0AuthenticationProvider.headers) w1 = (Ok sent, w2) ->
     perform (conn_getresponse conn) w2 = (Ok res, w3) ->
     perform (res_read res) w3 = (Ok bytes, w4) ->
     decode bytes "utf-8" = Ok decoded ->
     json_loads decoded = Ok (VDict items) ->
     dict_lookup "access_token" items = Some token ->
     dict_lookup "expires_in" items = None ->
     let r := Auth0AuthenticationProvider.get_access_token (State p w tr) in
     fst r = Raise (KeyError "expires_in") /\
     Auth0AuthenticationProvider.generated_auth_token (self (snd r)) = token /\
     Auth0AuthenticationProvider.expiry (self (snd r))
       = Auth0AuthenticationProvider.expiry p) /\
  (forall (p : AzureAuthenticationProvider.t) w tr cid sk authority scopes app items
          token w1 w2,
     getattr (AzureAuthenticationProvider.config p) "client_id" = Ok cid ->
     getattr (AzureAuthenticationProvider.config p) "secret_key" = Ok sk ->
     getattr (AzureAuthenticationProvider.config p) "authority" = Ok authority ->
     getattr (AzureAuthenticationProvider.config p) "scopes" = Ok scopes ->
     perform (ConfidentialClientApplication cid sk authority) w = (Ok app, w1) ->
     perform (acquire_token_for_client app scopes) w1 = (Ok (VDict items), w2) ->
     dict_lookup "access_token" items = Some token ->
     dict_lookup "expires_in" items = None ->
     let r := AzureAuthenticationProvider.get_access_token (State p w tr) in
     fst r = Exit (VInt 1) /\
     AzureAuthenticationProvider.generated_auth_token (self (snd r)) = token /\
     AzureAuthenticationProvider.expiry (self (snd r))
       = AzureAuthenticationProvider.expiry p).
Proof.
  refine (conj _ (conj _ _)); intros; subst r.
  - unfold CustomOIDCAuthenticationProvider.get_access_token,
      CustomOIDCAuthenticationProvider.auth_token.
    run.
    repeat match goal with E : dict_lookup _ items = _ |- _ => rewrite E; clear E end.
    simpl. repeat split.
  - unfold Auth0AuthenticationProvider.get_access_token,
      Auth0AuthenticationProvider.auth_token.
    run.
    repeat match goal with E : dict_lookup _ items = _ |- _ => rewrite E; clear E end.
    simpl. repeat split.
  - unfold AzureAuthenticationProvider.get_access_token,
      AzureAuthenticationProvider.auth_token.
    run.
    repeat match goal with E : dict_lookup _ items = _ |- _ => rewrite E; clear E end.
    simpl. repeat split.
Qed.

(** A provider that holds ["abc"] and 3600 from an earlier call, then gets
    an answer without [expires_in]. *)
Lemma oidc_keeps_the_old_expiry :
  let st1 := snd (CustomOIDCAuthenticationProvider.get_access_token
                    (Cases.start Cases.oidc
                       [Scripted.GivesResponse (Cases.http 200 token_body);
                        Scripted.GivesResponse (Cases.http 200 token_only_body)])) in
  let r := CustomOIDCAuthenticationProvider.get_access_token
             (State (self st1) (env st1) (trace st1)) in
  fst r = Raise (KeyError "expires_in") /\
  CustomOIDCAuthenticationProvider.generated_auth_token (self (snd r)) = VStr "xyz" /\
  CustomOIDCAuthenticationProvider.expiry (self (snd r)) = VInt 3600.
Proof.
  intros st1 r. subst r.
  destruct (proj1 (@answer_without_expiry_is_half_stored Scripted.platform)
              (self st1) (env st1) (trace st1)
              (VStr "cid") (VStr "s3cret") (VStr "https://idp.example.com/token")
              (Cases.http 200 token_only_body) [("access_token", VStr "xyz")]
              (VStr "xyz") [])
    as (Hraise & Htoken & Hexpiry); try (vm_compute; reflexivity).
  refine (conj Hraise (conj Htoken _)).
  rewrite Hexpiry. vm_compute. reflexivity.
Defined.

(** [get] answers for every key of a dict and for no key of anything else:
    it cannot find one item and fail on the next. *)
Ltac dict_get_clash :=
  match goal with
  | E : dict_get ?v _ = Ok _, E' : dict_get ?v _ = Err _ |- _ =>
      destruct v; simpl in E, E'; try discriminate;
      repeat match goal with
             | G : context [dict_lookup ?k ?i] |- _ => destruct (dict_lookup k i)
             end;
      discriminate
  end.

(** X5.  A call of the Google or Okta provider that does not return
    leaves the provider exactly as it was: both store the answer only once
    nothing can fail any more. *)
Theorem failed_call_leaves_provider_untouched `{Platform} :
  (forall st : state GoogleAuthenticationProvider.t,
     (forall r, fst (GoogleAuthenticationProvider.get_access_token st) <> Ret r) ->
     self (snd (GoogleAuthenticationProvider.get_access_token st)) = self st) /\
  (forall st : state OktaAuthenticationProvider.t,
     (forall r, fst (OktaAuthenticationProvider.get_access_token st) <> Ret r) ->
     self (snd (OktaAuthenticationProvider.get_access_token st)) = self st).
Proof.
  split; intros [p w tr].
  - unfold GoogleAuthenticationProvider.get_access_token,
      GoogleAuthenticationProvider.auth_token.
    cases; intros Hfail; try reflexivity; exfalso; eapply Hfail; reflexivity.
  - unfold OktaAuthenticationProvider.get_access_token,
      OktaAuthenticationProvider.auth_token, OktaAuthenticationProvider.exchange,
      OktaAuthenticationProvider.send_token_request.
    cases; intros Hfail; try reflexivity;
      try (exfalso; eapply Hfail; reflexivity); dict_get_clash.
Qed.

(** The Okta provider when the SDK reports a failed request. *)
Lemma okta_untouched_after_reported_error :
  self (snd (OktaAuthenticationProvider.get_access_token
               (Cases.start Cases.okta
                  (Cases.okta_script "id-1" error_body (VStr "invalid_client")))))
  = Cases.okta.
Proof.
  apply (proj2 (@failed_call_leaves_provider_untouched Scripted.platform)
           (Cases.start Cases.okta
              (Cases.okta_script "id-1" error_body (VStr "invalid_client")))).
  intros r Hr.
  assert (Hrun : fst (OktaAuthenticationProvider.get_access_token
                        (Cases.start Cases.okta
                           (Cases.okta_script "id-1" error_body (VStr "invalid_client"))))
                 = Exit VNone) by (vm_compute; reflexivity).
  rewrite Hrun in Hr. discriminate Hr.
Defined.

(** X6.  No provider retries: a call sends at most one token request, and
    exactly one when it returns; the no-op provider sends none. *)
Theorem at_most_one_token_request `{Platform} :
  (forall st : state GoogleAuthenticationProvider.t,
     let r := GoogleAuthenticationProvider.get_access_token st in
     (List.length (List.filter is_token_request (emitted st (snd r))) <= 1)%nat /\
     (forall v, fst r = Ret v ->
                List.length (List.filter is_token_request (emitted st (snd r))) = 1%nat)) /\
  (forall st : state OktaAuthenticationProvider.t,
     let r := OktaAuthenticationProvider.get_access_token st in
     (List.length (List.filter is_token_request (emitted st (snd r))) <= 1)%nat /\
     (forall v, fst r = Ret v ->
                List.length (List.filter is_token_request (emitted st (snd r))) = 1%nat)) /\
  (forall st : state Auth0AuthenticationProvider.t,
     let r := Auth0AuthenticationProvider.get_access_token st in
     (List.length (List.filter is_token_request (emitted st (snd r))) <= 1)%nat /\
     (forall v, fst r = Ret v ->
                List.length (List.filter is_token_request (emitted st (snd r))) = 1%nat)) /\
  (forall st : state AzureAuthenticationProvider.t,
     let r := AzureAuthenticationProvider.get_access_token st in
     (List.length (List.filter is_token_request (emitted st (snd r))) <= 1)%nat /\
     (forall v, fst r = Ret v ->
                List.length (List.filter is_token_request (emitted st (snd r))) = 1%nat)) /\
  (forall st : state CustomOIDCAuthenticationProvider.t,
     let r := CustomOIDCAuthenticationProvider.get_access_token st in
     (List.length (List.filter is_token_request (emitted st (snd r))) <= 1)%nat /\
     (forall v, fst r = Ret v ->
                List.length (List.filter is_token_request (emitted st (snd r))) = 1%nat)) /\
  (forall st : state NoOpAuthenticationProvider.t,
     emitted st (snd (NoOpAuthenticationProvider.get_access_token st)) = []).
Proof.
  refine (conj _ (conj _ (conj _ (conj _ (conj _ _))))); intros [p w tr]; simpl.
  - unfold GoogleAuthenticationProvider.get_access_token,
      GoogleAuthenticationProvider.auth_token.
    cases; read_emitted; (split; [lia | intros; (discriminate || reflexivity)]).
  - unfold OktaAuthenticationProvider.get_access_token,
      OktaAuthenticationProvider.auth_token, OktaAuthenticationProvider.exchange,
      OktaAuthenticationProvider.send_token_request.
    cases; read_emitted; (split; [lia | intros; (discriminate || reflexivity)]).
  - unfold Auth0AuthenticationProvider.get_access_token,
      Auth0AuthenticationProvider.auth_token.
    cases; read_emitted; (split; [lia | intros; (discriminate || reflexivity)]).
  - unfold AzureAuthenticationProvider.get_access_token,
      AzureAuthenticationProvider.auth_token.
    cases; read_emitted; (split; [lia | intros; (discriminate || reflexivity)]).
  - unfold CustomOIDCAuthenticationProvider.get_access_token,
      CustomOIDCAuthenticationProvider.auth_token.
    cases; read_emitted; (split; [lia | intros; (discriminate || reflexivity)]).
  - apply emitted_nil.
Qed.

(** ** What the providers hand to the libraries *)

(** Take a run apart, and with it the assumption that some call is among
    the events it added. *)
Ltac find_call :=
  let Hrun := fresh "Hrun" in
  let Hin := fresh "Hin" in
  cases; intros Hrun Hin; injection Hrun as <- <-;
  rewrite <- ?app_assoc in Hin; simpl in Hin;
  first [ rewrite emitted_app in Hin | rewrite emitted_nil in Hin ];
  simpl in Hin; intuition (try discriminate).





(** X10.  What the Google provider refreshes: the credentials
    [from_service_account_file] returned for the configured [secretKey] and
    [audience], with the request object [Request()] returned, both in this
    call. *)
Theorem google_refreshes_the_loaded_credentials `{Platform}
    (st st' : state GoogleAuthenticationProvider.t) r credentials request :
  GoogleAuthenticationProvider.get_access_token st = (r, st') ->
  In (Called (credentials_refresh credentials request)) (emitted st st') ->
  exists secretKey audience w1 w2,
    getattr (GoogleAuthenticationProvider.security_config (self st)) "secretKey"
      = Ok secretKey /\
    getattr (GoogleAuthenticationProvider.security_config (self st)) "audience"
      = Ok audience /\
    perform (IDTokenCredentials_from_service_account_file secretKey audience) (env st)
      = (Ok credentials, w1) /\
    perform google_Request w1 = (Ok request, w2).
Proof.
  destruct st as [p w tr]. simpl self. simpl env.
  match goal with |- _ -> _ -> ?C => remember C as Shape eqn:HS end.
  unfold GoogleAuthenticationProvider.get_access_token,
    GoogleAuthenticationProvider.auth_token.
  find_call;
    match goal with
    | Heq : Called _ = Called _ |- _ => injection Heq as <- <-
    end;
    subst Shape; repeat eexists; eassumption.
Qed.

(** X11.  What the Azure provider asks msal for: a token for the [scopes]
    attribute of the configuration, from the application built from its
    [client_id], [secret_key] and [authority] in this call. *)
Theorem azure_asks_with_configured_credentials `{Platform}
    (st st' : state AzureAuthenticationProvider.t) r app scopes :
  AzureAuthenticationProvider.get_access_token st = (r, st') ->
  In (Called (acquire_token_for_client app scopes)) (emitted st st') ->
  exists client_id secret_key authority w1,
    getattr (AzureAuthenticationProvider.config (self st)) "client_id" = Ok client_id /\
    getattr (AzureAuthenticationProvider.config (self st)) "secret_key" = Ok secret_key /\
    getattr (AzureAuthenticationProvider.config (self st)) "authority" = Ok authority /\
    getattr (AzureAuthenticationProvider.config (self st)) "scopes" = Ok scopes /\
    perform (ConfidentialClientApplication client_id secret_key authority) (env st)
      = (Ok app, w1).
Proof.
  destruct st as [p w tr]. simpl self. simpl env.
  match goal with |- _ -> _ -> ?C => remember C as Shape eqn:HS end.
  unfold AzureAuthenticationProvider.get_access_token,
    AzureAuthenticationProvider.auth_token.
  find_call;
    match goal with
    | Heq : Called _ = Called _ |- _ => injection Heq as <- <-
    end;
    subst Shape; repeat eexists; eassumption.
Qed.



Lemma google_refresh_on_scripted_platform :
  exists w1 w2,
    @perform Scripted.platform
      (IDTokenCredentials_from_service_account_file
         (VStr "/secrets/service-account.json") (VStr "https://metadata.example.com"))
      Cases.google_script
      = (Ok (Cases.handle "IDTokenCredentials"), w1) /\
    @perform Scripted.platform google_Request w1 = (Ok (Cases.handle "Request"), w2).
Proof.
  destruct (@google_refreshes_the_loaded_credentials Scripted.platform
              (Cases.start Cases.google Cases.google_script)
              (snd (GoogleAuthenticationProvider.get_access_token
                      (Cases.start Cases.google Cases.google_script)))
              (fst (GoogleAuthenticationProvider.get_access_token
                      (Cases.start Cases.google Cases.google_script)))
              (Cases.handle "IDTokenCredentials") (Cases.handle "Request"))
    as (key & aud & w1 & w2 & Hkey & Haud & Hload & Hreq).
  - apply surjective_pairing.
  - vm_compute. intuition reflexivity.
  - injection Hkey as <-. injection Haud as <-.
    exists w1, w2. split; [exact Hload | exact Hreq].
Defined.

Lemma azure_asks_on_scripted_platform :
  exists w1,
    @perform Scripted.platform
      (ConfidentialClientApplication (VStr "cid") (VStr "s3cret")
         (VStr "https://login.microsoftonline.com/tenant"))
      (Cases.azure_script token_dict)
      = (Ok (Cases.handle "ConfidentialClientApplication"), w1).
Proof.
  destruct (@azure_asks_with_configured_credentials Scripted.platform
              (Cases.start (Cases.azure Cases.flat_azure_config)
                 (Cases.azure_script token_dict))
              (snd (AzureAuthenticationProvider.get_access_token
                      (Cases.start (Cases.azure Cases.flat_azure_config)
                         (Cases.azure_script token_dict))))
              (fst (AzureAuthenticationProvider.get_access_token
                      (Cases.start (Cases.azure Cases.flat_azure_config)
                         (Cases.azure_script token_dict))))
              (Cases.handle "ConfidentialClientApplication")
              (VList [VStr "api://metadata/.default"]))
    as (cid & sk & auth & w1 & Hcid & Hsk & Hauth & _ & Happ).
  - apply surjective_pairing.
  - vm_compute. intuition reflexivity.
  - injection Hcid as <-. injection Hsk as <-. injection Hauth as <-.
    exists w1. exact Happ.
Defined.

(** ** Answers the providers cannot use *)

(** X12.  The Okta provider and a body that is not a JSON object: when
    the request went through with no error reported but [json.loads] fails
    on the body, or yields anything but a dict, the exception is logged twice
    and the process is ended; nothing is stored. *)
Theorem okta_unusable_body_ends_the_process `{Platform}
    (st st1 : state OktaAuthenticationProvider.t) req details res_json err :
  OktaAuthenticationProvider.send_token_request st
    = (Ret (req, details, res_json, err), st1) ->
  truthy err = false ->
  (forall items, json_loads res_json <> Ok (VDict items)) ->
  exists e,
    OktaAuthenticationProvider.get_access_token st
      = (Exit VNone,
         State (self st1) (env st1)
           (trace st1 ++ [Logged "debug" e; Logged "error" e])) /\
    (json_loads res_json = Err e \/
     (exists v, json_loads res_json = Ok v) /\ e = AttributeError "get").
Proof.
  intros Hsend Herr Hbody.
  unfold OktaAuthenticationProvider.get_access_token, asyncio_run,
    OktaAuthenticationProvider.auth_token, try_except_Exception,
    OktaAuthenticationProvider.exchange, bind.
  rewrite Hsend. unfold_monad. simpl. rewrite Herr. simpl.
  destruct (json_loads res_json) as [v|e] eqn:Hjson; simpl.
  - exists (AttributeError "get").
    destruct v; simpl; try (specialize (Hbody items); congruence);
      rewrite <- app_assoc; (split; [reflexivity | right; eauto]).
  - exists e. rewrite <- app_assoc. split; [reflexivity | left; reflexivity].
Qed.

(** The Okta provider when the endpoint answers with a JSON array. *)
Lemma okta_array_body_ends_the_process :
  fst (OktaAuthenticationProvider.get_access_token
         (Cases.start Cases.okta (Cases.okta_script "id-1" "[1, 2]" VNone)))
    = Exit VNone.
Proof.
  destruct (@okta_unusable_body_ends_the_process Scripted.platform
              (Cases.start Cases.okta (Cases.okta_script "id-1" "[1, 2]" VNone))
              (snd (OktaAuthenticationProvider.send_token_request
                      (Cases.start Cases.okta (Cases.okta_script "id-1" "[1, 2]" VNone))))
              (VDict [("method", VStr "POST")]) (Cases.handle "ClientResponse")
              (VStr "[1, 2]") VNone)
    as (e & Hrun & _).
  - apply run_with_its_state. vm_compute. reflexivity.
  - reflexivity.
  - intros items Hitems. vm_compute in Hitems. discriminate Hitems.
  - rewrite Hrun. reflexivity.
Defined.

(** X13.  The generic OIDC provider and a success status with a body it
    cannot use: the exception of [response.json()] is raised as it is; a
    JSON object without [access_token] raises [KeyError('access_token')];
    JSON that is no object raises TypeError.  In each case the provider is
    left as it was and no second request is made. *)
Theorem oidc_unusable_body_is_raised `{Platform}
    (p : CustomOIDCAuthenticationProvider.t) w tr cid sk url resp w1 :
  getattr (CustomOIDCAuthenticationProvider.security_config p) "clientId" = Ok cid ->
  getattr (CustomOIDCAuthenticationProvider.security_config p) "secretKey" = Ok sk ->
  getattr (CustomOIDCAuthenticationProvider.security_config p) "tokenEndpoint" = Ok url ->
  perform (requests_post url (CustomOIDCAuthenticationProvider.data cid sk)) w
    = (Ok resp, w1) ->
  ok resp = true ->
  let after e :=
    (Raise e : outcome (value * value),
     State p w1 (tr ++ [Called (requests_post url
                                  (CustomOIDCAuthenticationProvider.data cid sk))])) in
  (forall e, json resp = Err e ->
     CustomOIDCAuthenticationProvider.get_access_token (State p w tr) = after e) /\
  (forall items, json resp = Ok (VDict items) ->
     dict_lookup "access_token" items = None ->
     CustomOIDCAuthenticationProvider.get_access_token (State p w tr)
       = after (KeyError "access_token")) /\
  (forall v, json resp = Ok v ->
     (forall items, v <> VDict items) ->
     exists msg,
       CustomOIDCAuthenticationProvider.get_access_token (State p w tr)
         = after (TypeError msg)).
Proof.
  intros Hcid Hsk Hurl Hpost Hok after. subst after.
  unfold CustomOIDCAuthenticationProvider.get_access_token,
    CustomOIDCAuthenticationProvider.auth_token.
  refine (conj _ (conj _ _)).
  - intros e Hjson. run. reflexivity.
  - intros items Hjson Hnone. run. rewrite Hnone. reflexivity.
  - intros v Hjson Hnot. run.
    destruct v; simpl; try (eexists; reflexivity).
    exfalso. eapply Hnot. reflexivity.
Qed.

(** The generic OIDC provider when a 200 answer carries the error body. *)
Lemma oidc_success_status_with_error_body :
  fst (CustomOIDCAuthenticationProvider.get_access_token
         (Cases.start Cases.oidc [Scripted.GivesResponse (Cases.http 200 error_body)]))
    = Raise (KeyError "access_token").
Proof.
  erewrite (proj1 (proj2 (@oidc_unusable_body_is_raised Scripted.platform Cases.oidc
                            [Scripted.GivesResponse (Cases.http 200 error_body)] []
                            (VStr "cid") (VStr "s3cret")
                            (VStr "https://idp.example.com/token")
                            (Cases.http 200 error_body) []
                            eq_refl eq_refl eq_refl eq_refl eq_refl))
              [("error", VStr "invalid_client")]).
  - reflexivity.
  - vm_compute. reflexivity.
  - reflexivity.
Defined.

(** X14.  The generic OIDC provider and any answer that is not a success:
    one POST of the three form fields to the configured endpoint, then an
    [APIError] whose message is the response text and whose status is the
    response status, both as they came -- whatever they are; the body is not
    parsed and nothing is stored. *)
Theorem oidc_failure_is_reported_verbatim `{Platform}
    (p : CustomOIDCAuthenticationProvider.t) w tr clientId secretKey tokenEndpoint resp w1 :
  getattr (CustomOIDCAuthenticationProvider.security_config p) "clientId" = Ok clientId ->
  getattr (CustomOIDCAuthenticationProvider.security_config p) "secretKey"
    = Ok secretKey ->
  getattr (CustomOIDCAuthenticationProvider.security_config p) "tokenEndpoint"
    = Ok tokenEndpoint ->
  let post :=
    requests_post tokenEndpoint
      (VDict [("grant_type", VStr "client_credentials");
              ("client_id", clientId);
              ("client_secret", secretKey)]) in
  perform post w = (Ok resp, w1) ->
  ok resp = false ->
  exists e,
    CustomOIDCAuthenticationProvider.get_access_token (State p w tr)
      = (Raise e, State p w1 (tr ++ [Called post])) /\
    e = APIError (VDict [("message", VStr (text resp))]) (VInt (status_code resp)) /\
    APIError_message e = Some (text resp).
Proof.
  intros Hcid Hsk Hurl post Hpost Hok. subst post.
  eexists. split; [|split; reflexivity].
  eapply oidc_http_failure; eassumption.
Qed.

(** The generic OIDC provider against an endpoint that is down. *)
Lemma oidc_reports_a_503 :
  exists e,
    fst (CustomOIDCAuthenticationProvider.get_access_token
           (Cases.start Cases.oidc
              [Scripted.GivesResponse (Cases.http 503 "Service Unavailable")]))
      = Raise e /\
    APIError_message e = Some "Service Unavailable".
Proof.
  destruct (@oidc_failure_is_reported_verbatim Scripted.platform Cases.oidc
              [Scripted.GivesResponse (Cases.http 503 "Service Unavailable")] []
              (VStr "cid") (VStr "s3cret") (VStr "https://idp.example.com/token")
              (Cases.http 503 "Service Unavailable") []
              eq_refl eq_refl eq_refl eq_refl eq_refl)
    as (e & Hrun & _ & Hmessage).
  exists e. rewrite Hrun. split; [reflexivity | exact Hmessage].
Defined.

(** X15.  The Azure provider catches KeyError and nothing else: a token
    result that is not a dict makes the first subscript raise TypeError,
    which reaches the caller -- no log record, no end of the process. *)
Theorem azure_token_result_not_a_dict `{Platform}
    (p : AzureAuthenticationProvider.t) w tr cid sk authority scopes app token w1 w2 :
  getattr (AzureAuthenticationProvider.config p) "client_id" = Ok cid ->
  getattr (AzureAuthenticationProvider.config p) "secret_key" = Ok sk ->
  getattr (AzureAuthenticationProvider.config p) "authority" = Ok authority ->
  getattr (AzureAuthenticationProvider.config p) "scopes" = Ok scopes ->
  perform (ConfidentialClientApplication cid sk authority) w = (Ok app, w1) ->
  perform (acquire_token_for_client app scopes) w1 = (Ok token, w2) ->
  (forall items, token <> VDict items) ->
  exists msg,
    AzureAuthenticationProvider.get_access_token (State p w tr)
      = (Raise (TypeError msg),
         State p w2
           (tr ++ [Called (ConfidentialClientApplication cid sk authority);
                   Called (acquire_token_for_client app scopes)])).
Proof.
  intros ? ? ? ? ? ? Hnot.
  unfold AzureAuthenticationProvider.get_access_token,
    AzureAuthenticationProvider.auth_token.
  run.
  destruct token; simpl; try (eexists; rewrite <- app_assoc; reflexivity).
  exfalso. eapply Hnot. reflexivity.
Qed.

(** The Azure provider when msal hands back [None]. *)
Lemma azure_none_result_is_a_type_error :
  exists msg,
    fst (AzureAuthenticationProvider.get_access_token
           (Cases.start (Cases.azure Cases.flat_azure_config) (Cases.azure_script VNone)))
      = Raise (TypeError msg).
Proof.
  destruct (@azure_token_result_not_a_dict Scripted.platform
              (Cases.azure Cases.flat_azure_config) (Cases.azure_script VNone) []
              (VStr "cid") (VStr "s3cret")
              (VStr "https://login.microsoftonline.com/tenant")
              (VList [VStr "api://metadata/.default"])
              (Cases.handle "ConfidentialClientApplication") VNone
              [Scripted.Gives VNone] []
              eq_refl eq_refl eq_refl eq_refl eq_refl eq_refl)
    as (msg & Hrun).
  - intros items Hitems. discriminate Hitems.
  - exists msg. rewrite Hrun. reflexivity.
Defined.

(** ** Logging *)

(** X16.  When the providers log.  The Google, Auth0 and generic OIDC
    providers never log.  The Okta provider logs nothing when it returns and,
    when it ends the process, a [debug] and an [error] record of the
    exception it caught.  The Azure provider logs only when it ends the
    process: an [error] and two [debug] records of the KeyError. *)
Theorem log_records_come_with_process_end `{Platform} :
  (forall st : state GoogleAuthenticationProvider.t,
     List.filter is_log (emitted st (snd (GoogleAuthenticationProvider.get_access_token st)))
     = []) /\
  (forall st : state Auth0AuthenticationProvider.t,
     List.filter is_log (emitted st (snd (Auth0AuthenticationProvider.get_access_token st)))
     = []) /\
  (forall st : state CustomOIDCAuthenticationProvider.t,
     List.filter is_log
       (emitted st (snd (CustomOIDCAuthenticationProvider.get_access_token st)))
     = []) /\
  (forall st : state OktaAuthenticationProvider.t,
     let r := OktaAuthenticationProvider.get_access_token st in
     let logs := List.filter is_log (emitted st (snd r)) in
     ((exists v, fst r = Ret v) /\ logs = []) \/
     (exists e, fst r = Exit VNone /\ logs = [Logged "debug" e; Logged "error" e])) /\
  (forall st : state AzureAuthenticationProvider.t,
     let r := AzureAuthenticationProvider.get_access_token st in
     let logs := List.filter is_log (emitted st (snd r)) in
     ((forall code, fst r <> Exit code) /\ logs = []) \/
     (exists key,
        fst r = Exit (VInt 1) /\
        logs = [Logged "error" (KeyError key);
                Logged "debug" (KeyError key);
                Logged "debug" (KeyError key)])).
Proof.
  refine (conj _ (conj _ (conj _ (conj _ _)))); intros [p w tr]; simpl.
  - unfold GoogleAuthenticationProvider.get_access_token,
      GoogleAuthenticationProvider.auth_token.
    cases; read_emitted; reflexivity.
  - unfold Auth0AuthenticationProvider.get_access_token,
      Auth0AuthenticationProvider.auth_token.
    cases; read_emitted; reflexivity.
  - unfold CustomOIDCAuthenticationProvider.get_access_token,
      CustomOIDCAuthenticationProvider.auth_token.
    cases; read_emitted; reflexivity.
  - unfold OktaAuthenticationProvider.get_access_token,
      OktaAuthenticationProvider.auth_token, OktaAuthenticationProvider.exchange,
      OktaAuthenticationProvider.send_token_request.
    cases; read_emitted;
      first [ left; split; [eexists; reflexivity | reflexivity]
            | right; eexists; split; reflexivity ].
  - unfold AzureAuthenticationProvider.get_access_token,
      AzureAuthenticationProvider.auth_token.
    cases; read_emitted;
      first [ left; split; [discriminate | reflexivity]
            | right; eexists; split; reflexivity ].
Qed.

(** Two calls of the generic OIDC provider: the second sends one request
    of its own. *)
Lemma oidc_second_call_sends_one_request :
  let st1 := snd (CustomOIDCAuthenticationProvider.get_access_token
                    (Cases.start Cases.oidc
                       [Scripted.GivesResponse (Cases.http 200 token_body);
                        Scripted.GivesResponse (Cases.http 200 Cases.other_token_body)])) in
  List.length
    (List.filter is_token_request
       (emitted st1 (snd (CustomOIDCAuthenticationProvider.get_access_token st1))))
  = 1%nat.
Proof.
  intros st1.
  apply (proj2 (proj1 (proj2 (proj2 (proj2 (proj2
           (@at_most_one_token_request Scripted.platform))))) st1)
           (VStr "xyz", VInt 60)).
  vm_compute. reflexivity.
Defined.

(** ** Configurations of the wrong shape *)

(** X17.  A security configuration that lacks an attribute the provider
    reads.  The Google and generic OIDC providers read all their attributes
    before they call any library, so the AttributeError of the first missing
    one is raised with nothing called.  The Auth0 provider reads [domain],
    builds the connection object, and only then reads [clientId] and
    [secretKey]: a missing one is raised with the connection built but no
    request sent on it. *)
Theorem missing_attribute_is_raised_before_any_request `{Platform} :
  (forall (p : GoogleAuthenticationProvider.t) w tr e,
     getattr (GoogleAuthenticationProvider.security_config p) "secretKey" = Err e \/
     (exists key,
        getattr (GoogleAuthenticationProvider.security_config p) "secretKey" = Ok key /\
        getattr (GoogleAuthenticationProvider.security_config p) "audience" = Err e) ->
     GoogleAuthenticationProvider.get_access_token (State p w tr)
       = (Raise e, State p w tr)) /\
  (forall (p : CustomOIDCAuthenticationProvider.t) w tr e,
     getattr (CustomOIDCAuthenticationProvider.security_config p) "clientId" = Err e \/
     (exists cid,
        getattr (CustomOIDCAuthenticationProvider.security_config p) "clientId" = Ok cid /\
        (getattr (CustomOIDCAuthenticationProvider.security_config p) "secretKey" = Err e \/
         exists sk,
           getattr (CustomOIDCAuthenticationProvider.security_config p) "secretKey"
             = Ok sk /\
           getattr (CustomOIDCAuthenticationProvider.security_config p) "tokenEndpoint"
             = Err e)) ->
     CustomOIDCAuthenticationProvider.get_access_token (State p w tr)
       = (Raise e, State p w tr)) /\
  (forall (p : Auth0AuthenticationProvider.t) w tr domain conn w1 e,
     getattr (Auth0AuthenticationProvider.security_config p) "domain" = Ok domain ->
     perform (HTTPSConnection domain) w = (Ok conn, w1) ->
     getattr (Auth0AuthenticationProvider.security_config p) "clientId" = Err e \/
     (exists cid,
        getattr (Auth0AuthenticationProvider.security_config p) "clientId" = Ok cid /\
        getattr (Auth0AuthenticationProvider.security_config p) "secretKey" = Err e) ->
     Auth0AuthenticationProvider.get_access_token (State p w tr)
       = (Raise e, State p w1 (tr ++ [Called (HTTPSConnection domain)]))).
Proof.
  refine (conj _ (conj _ _)).
  - intros p w tr e [Hkey | (key & Hkey & Haud)];
      unfold GoogleAuthenticationProvider.get_access_token,
        GoogleAuthenticationProvider.auth_token; run; reflexivity.
  - intros p w tr e [Hcid | (cid & Hcid & [Hsk | (sk & Hsk & Hurl)])];
      unfold CustomOIDCAuthenticationProvider.get_access_token,
        CustomOIDCAuthenticationProvider.auth_token; run; reflexivity.
  - intros p w tr domain conn w1 e Hdomain Hconn [Hcid | (cid & Hcid & Hsk)];
      unfold Auth0AuthenticationProvider.get_access_token,
        Auth0AuthenticationProvider.auth_token; run; reflexivity.
Qed.

(** The Google provider handed the Okta security configuration. *)
Lemma google_with_okta_configuration :
  GoogleAuthenticationProvider.get_access_token
    (Cases.start Cases.google_on_okta_configuration Cases.google_script)
  = (Raise (AttributeError "secretKey"),
     Cases.start Cases.google_on_okta_configuration Cases.google_script).
Proof.
  apply (proj1 (@missing_attribute_is_raised_before_any_request Scripted.platform)).
  left. reflexivity.
Defined.
